(** * config.py: loading and validating the Emotiv Cortex configuration

    A shallow embedding of [src/python/config.py].  The module reads the
    process environment (after an optional [.env] file has been merged in),
    coerces seven settings, and offers [validate], which raises when a
    mandatory credential is missing and otherwise creates the export folder.

    Conventions of the embedding:
    - a Python [str] is a [string]; one character stands for one element of
      the text, a code point below 256, and the non-ASCII decoration of
      literals is kept in UTF-8;
    - [os.environ] is a [gmap string string];
    - an exception is a value of [exn]; code that can raise returns a sum;
    - the filesystem is an explicit state threaded through [validate].

    What the runtime does outside the module is embedded as far as the
    module uses it: [str.lower] and [str.isspace] on ASCII texts, [int]
    on texts of code points below 256 with the interpreter's default cap
    on the number of digits, [pathlib] paths of the POSIX flavour, and a
    filesystem of directories and regular files without links, in which
    a directory may refuse new entries.  The limits that the operating
    system puts on names and the interpreter on the depth of recursion
    are left out, so the embedding promises no success of a directory
    creation that the machine can still refuse.  The home directory, the
    presence of python-dotenv and the parsed [.env] file are given by a
    [Platform]: the embedding is of an import on a machine where
    [Path.home()] finds the home directory. *)

From Stdlib Require Import ZArith String Ascii List Bool Lia.
From stdpp Require Import gmap strings list fin_maps pretty.

Local Open Scope string_scope.

(** ** Exceptions *)

(** The [OSError] subclasses that [os.mkdir] can raise. *)
Inductive errno : Type :=
| ENOENT    (* FileNotFoundError *)
| EEXIST    (* FileExistsError *)
| ENOTDIR   (* NotADirectoryError *)
| EACCES.   (* PermissionError *)

Inductive exn : Type :=
| RuntimeError (msg : string)
| ValueError (literal : string)
| OSError (e : errno).

(** ** Text operations of the Python runtime used by the module *)

Module Str.

(** [c.isupper()] for an ASCII letter. *)
Definition is_upper (c : ascii) : bool :=
  let n := nat_of_ascii c in (65 <=? n)%nat && (n <=? 90)%nat.

(** Case mapping of one character: the ASCII capitals go to their small
    letters, every other character is left as it is. *)
Definition lower_char (c : ascii) : ascii :=
  if is_upper c then ascii_of_nat (nat_of_ascii c + 32) else c.

(** [s.lower()] *)
Fixpoint lower (s : string) : string :=
  match s with
  | EmptyString => EmptyString
  | String c s' => String (lower_char c) (lower s')
  end.

(** [s.startswith(p)] *)
Fixpoint startswith (p s : string) : bool :=
  match p, s with
  | EmptyString, _ => true
  | String _ _, EmptyString => false
  | String a p', String b s' =>
      if Ascii.eqb a b then startswith p' s' else false
  end.

(** [needle in hay] for two strings. *)
Fixpoint contains (needle hay : string) : bool :=
  startswith needle hay ||
  match hay with
  | EmptyString => false
  | String _ hay' => contains needle hay'
  end.

(** [sep.join(parts)] *)
Fixpoint join (sep : string) (parts : list string) : string :=
  match parts with
  | [] => ""
  | [p] => p
  | p :: rest => p ++ sep ++ join sep rest
  end.

(** [c * n] for a one-character string [c]. *)
Fixpoint repeat (c : ascii) (n : nat) : string :=
  match n with
  | O => EmptyString
  | S n' => String c (repeat c n')
  end.

(** [format(s, "<w")]: left-justify in a field of width [w]. *)
Definition ljust (w : nat) (s : string) : string :=
  s ++ repeat " " (w - String.length s).

(** The ASCII characters that [str.isspace] counts as whitespace: tab
    to carriage return, the four separators and the space. *)
Definition is_space (c : ascii) : bool :=
  let n := nat_of_ascii c in
  ((9 <=? n)%nat && (n <=? 13)%nat) || ((28 <=? n)%nat && (n <=? 32)%nat).

Fixpoint all_space (s : string) : bool :=
  match s with
  | EmptyString => true
  | String c s' => is_space c && all_space s'
  end.

(** [s.isspace()]: at least one character, and all of them whitespace. *)
Definition isspace (s : string) : bool :=
  negb (String.eqb s "") && all_space s.

(** [s.split(sep)] for a one-character separator: the pieces between
    the separators, empty pieces included. *)
Fixpoint split_go (sep : ascii) (acc : string) (s : string) : list string :=
  match s with
  | EmptyString => [acc]
  | String c s' =>
      if Ascii.eqb c sep then acc :: split_go sep "" s'
      else split_go sep (acc ++ String c "") s'
  end.

Definition split (sep : ascii) (s : string) : list string :=
  split_go sep "" s.

End Str.

(** ** [int(text)] *)

Module PyInt.

(** The embedding reads a character as a code point below 256.  There the
    decimal digits are [0] to [9], and the whitespace that [int()] skips
    around the literal is tab to carriage return, the space, U+0085 and
    U+00A0.  The separators 0x1C to 0x1F, whitespace for [str.isspace],
    are not skipped by [int()]. *)
Definition is_space (c : ascii) : bool :=
  let n := nat_of_ascii c in
  ((9 <=? n)%nat && (n <=? 13)%nat) || (n =? 32)%nat
  || (n =? 133)%nat || (n =? 160)%nat.

Fixpoint all_space (s : string) : bool :=
  match s with
  | EmptyString => true
  | String c s' => is_space c && all_space s'
  end.

Definition digit_value (c : ascii) : option Z :=
  let n := nat_of_ascii c in
  if (48 <=? n)%nat && (n <=? 57)%nat then Some (Z.of_nat (n - 48)) else None.

Fixpoint lstrip (s : string) : string :=
  match s with
  | String c s' => if is_space c then lstrip s' else s
  | EmptyString => EmptyString
  end.

(** The digits of the literal, most significant first.  [acc] is the
    value read so far and [prev_digit] tells whether the previous
    character was a digit: an underscore is accepted only between two
    digits.  The scan stops at the first character that is neither and
    hands back the rest of the text. *)
Fixpoint digits (acc : Z) (prev_digit : bool) (s : string) : option (Z * string) :=
  match s with
  | EmptyString => if prev_digit then Some (acc, EmptyString) else None
  | String c s' =>
      match digit_value c with
      | Some d => digits (10 * acc + d) true s'
      | None =>
          if Ascii.eqb c "_" then
            if prev_digit then digits acc false s' else None
          else if prev_digit then Some (acc, s) else None
      end
  end.

(** The number of digit characters of a text; underscores, the sign and
    whitespace do not count. *)
Fixpoint count_digits (s : string) : N :=
  match s with
  | EmptyString => 0
  | String c s' =>
      match digit_value c with
      | Some _ => N.succ (count_digits s')
      | None => count_digits s'
      end
  end%N.

(** [sys.get_int_max_str_digits()], as the interpreter starts: a literal
    with more digits is refused. *)
Definition max_str_digits : N := 4300.

(** [int(s)] in base ten: surrounding whitespace, an optional sign,
    then decimal digits, single underscores allowed between digits, and
    no more digits than the interpreter converts.  [None] stands for
    the [ValueError] of the interpreter. *)
Definition parse (s : string) : option Z :=
  let body := lstrip s in
  let '(sign, rest) :=
    match body with
    | String c r =>
        if Ascii.eqb c "+" then (1, r)
        else if Ascii.eqb c "-" then (-1, r)
        else (1, body)
    | EmptyString => (1, body)
    end%Z in
  match digits 0 false rest with
  | Some (v, tail) =>
      if all_space tail && (count_digits rest <=? max_str_digits)%N
      then Some (sign * v)%Z else None
  | None => None
  end.

End PyInt.

(** ** Paths ([pathlib.PurePosixPath]) *)

Record Path : Type := mkPath {
  absolute : bool;          (* the path starts at the root *)
  parts : list string       (* its components, outermost first *)
}.

Module PurePath.

Definition keep_part (p : string) : bool :=
  negb (String.eqb p "") && negb (String.eqb p ".").

(** [Path(s)]: empty components and [.] are dropped, [..] is kept. *)
Definition of_string (s : string) : Path :=
  {| absolute := Str.startswith "/" s;
     parts := List.filter keep_part (Str.split "/" s) |}.

(** [str(p)] *)
Definition to_string (p : Path) : string :=
  match parts p with
  | [] => if absolute p then "/" else "."
  | _ => (if absolute p then "/" else "") ++ Str.join "/" (parts p)
  end.

(** [p / segment] *)
Definition joinpath (p : Path) (segment : string) : Path :=
  let q := of_string segment in
  if absolute q then q
  else {| absolute := absolute p; parts := parts p ++ parts q |}.

End PurePath.

(** ** The process environment and the settings file *)

(** [os.getenv(key, default)] *)
Definition getenv (environ : gmap string string) (key default : string) : string :=
  match environ !! key with
  | Some v => v
  | None => default
  end.

Module Dotenv.

(** The bindings of a settings file as a dictionary: a key that occurs
    twice keeps its last value.  The file is taken as already parsed
    into its [KEY=VALUE] lines, in file order; a key written without
    [=] has no value. *)
Definition as_dict (bindings : list (string * option string))
  : gmap string (option string) :=
  fold_left (fun d kv => <[kv.1 := kv.2]> d) bindings ∅.

(** One step of the injection loop: a key the environment holds is
    skipped, and so is a key without a value. *)
Definition set_variable (k : string) (v : option string)
    (environ : gmap string string) : gmap string string :=
  match environ !! k with
  | Some _ => environ
  | None =>
      match v with
      | Some s => <[k := s]> environ
      | None => environ
      end
  end.

(** Modelled from the spec: [load_dotenv] is the python-dotenv
    function that [config.py] imports; its code is not among the
    sources.  It injects each key of the settings file into the
    process environment only when the key is not already present. *)
Definition load_dotenv (bindings : list (string * option string))
    (environ : gmap string string) : gmap string string :=
  map_fold set_variable environ (as_dict bindings).

End Dotenv.

(** What the module finds on the machine it is imported on. *)
Record Platform : Type := mkPlatform {
  home : Path;                                        (* [Path.home()] *)
  dotenv_installed : bool;                            (* [from dotenv import ...] works *)
  env_file : option (list (string * option string))   (* the [.env] beside the module *)
}.

(** Lines 23-34: merge the [.env] file into the environment. *)
Definition initialize (pf : Platform) (environ : gmap string string)
  : gmap string string :=
  if dotenv_installed pf then
    match env_file pf with
    | Some bindings => Dotenv.load_dotenv bindings environ
    | None => environ
    end
  else environ.

(** ** The settings *)

Record Settings : Type := mkSettings {
  CLIENT_ID : string;
  CLIENT_SECRET : string;
  HEADSET_ID : string;
  LICENSE : string;
  DEBIT : Z;
  DEBUG : bool;
  EXPORT_FOLDER : string
}.

(** [text.lower() in ("1", "true", "yes")] *)
Definition coerce_bool (text : string) : bool :=
  let t := Str.lower text in
  String.eqb t "1" || String.eqb t "true" || String.eqb t "yes".

(** [int(text)] *)
Definition coerce_int (text : string) : exn + Z :=
  match PyInt.parse text with
  | Some z => inr z
  | None => inl (ValueError text)
  end.

Definition default_export_folder (pf : Platform) : string :=
  PurePath.to_string (PurePath.joinpath (home pf) "cortex_exports").

(** Lines 40-66: the module-level assignments, in order.  The only one
    that can raise is [DEBIT]; nothing catches its exception. *)
Definition load_settings (pf : Platform) (environ : gmap string string)
  : exn + Settings :=
  let client_id := getenv environ "EMOTIV_CLIENT_ID" "" in
  let client_secret := getenv environ "EMOTIV_CLIENT_SECRET" "" in
  let headset_id := getenv environ "EMOTIV_HEADSET_ID" "" in
  let license := getenv environ "EMOTIV_LICENSE" "" in
  match coerce_int (getenv environ "EMOTIV_DEBIT" "10") with
  | inl e => inl e
  | inr debit =>
      let debug := coerce_bool (getenv environ "EMOTIV_DEBUG" "false") in
      let export_folder :=
        getenv environ "EMOTIV_EXPORT_FOLDER" (default_export_folder pf) in
      inr (mkSettings client_id client_secret headset_id license
                      debit debug export_folder)
  end.

(** Importing the module: the [.env] merge, then the assignments. *)
Definition import_config (pf : Platform) (environ : gmap string string)
  : exn + Settings :=
  load_settings pf (initialize pf environ).

(** ** The filesystem *)

Inductive node : Type := Dir | File.

(** A location is the list of names leading to an entry from the root,
    innermost name first: [/srv/data] is [["data"; "srv"]] and the root is
    [[]].  The root is always a directory and has no entry in [nodes]. *)
Record filesystem : Type := mkFS {
  nodes : gmap (list string) node;
  readonly : gset (list string);   (* directories that refuse new entries *)
  cwd : list string                (* the working directory *)
}.

Module OS.

Definition kind (fs : filesystem) (loc : list string) : option node :=
  match loc with
  | [] => Some Dir
  | _ => nodes fs !! loc
  end.

(** Following one component from a directory; [..] at the root stays
    at the root. *)
Definition step (cur : list string) (c : string) : list string :=
  if String.eqb c ".." then tail cur else c :: cur.

(** Path resolution: walk [comps] from [cur]; every location met on the
    way, the last one included, has to be a directory. *)
Fixpoint lookup_dir (fs : filesystem) (cur : list string)
    (comps : list string) : errno + list string :=
  match kind fs cur with
  | Some Dir =>
      match comps with
      | [] => inr cur
      | c :: cs => lookup_dir fs (step cur c) cs
      end
  | Some File => inl ENOTDIR
  | None => inl ENOENT
  end.

Definition start (fs : filesystem) (abs : bool) : list string :=
  if abs then [] else cwd fs.

(** [os.path.isdir]: false on any resolution error.  The path is given
    by its anchor and its components, innermost first. *)
Definition is_dir (fs : filesystem) (abs : bool) (rparts : list string) : bool :=
  match lookup_dir fs (start fs abs) (rev rparts) with
  | inr _ => true
  | inl _ => false
  end.

(** [os.mkdir]: creates exactly one directory, in an existing one. *)
Definition mkdir (fs : filesystem) (abs : bool) (rparts : list string)
  : errno + filesystem :=
  match rparts with
  | [] =>
      match lookup_dir fs (start fs abs) [] with
      | inl e => inl e
      | inr _ => inl EEXIST
      end
  | name :: rparent =>
      match lookup_dir fs (start fs abs) (rev rparent) with
      | inl e => inl e
      | inr d =>
          if String.eqb name ".." then inl EEXIST
          else
            match kind fs (name :: d) with
            | Some _ => inl EEXIST
            | None =>
                if decide (d ∈ readonly fs) then inl EACCES
                else inr (mkFS (<[name :: d := Dir]> (nodes fs))
                               (readonly fs) (cwd fs))
            end
      end
  end.

End OS.

(** ** [Path.mkdir] *)

(** [self.mkdir(parents=False, exist_ok=True)] *)
Definition mkdir_exist_ok (fs : filesystem) (abs : bool) (rparts : list string)
  : filesystem * (errno + unit) :=
  match OS.mkdir fs abs rparts with
  | inr fs' => (fs', inr tt)
  | inl ENOENT => (fs, inl ENOENT)
  | inl e => if OS.is_dir fs abs rparts then (fs, inr tt) else (fs, inl e)
  end.

(** [self.mkdir(parents=True, exist_ok=True)], by recursion on the
    components, innermost first: the tail of [rparts] is [self.parent],
    and a path without components is its own parent. *)
Fixpoint mkdir_parents (fs : filesystem) (abs : bool) (rparts : list string)
  : filesystem * (errno + unit) :=
  match OS.mkdir fs abs rparts with
  | inr fs' => (fs', inr tt)
  | inl ENOENT =>
      match rparts with
      | [] => (fs, inl ENOENT)
      | _ :: rparent =>
          match mkdir_parents fs abs rparent with
          | (fs1, inl e) => (fs1, inl e)
          | (fs1, inr _) => mkdir_exist_ok fs1 abs rparts
          end
      end
  | inl e => if OS.is_dir fs abs rparts then (fs, inr tt) else (fs, inl e)
  end.

(** [Path(folder).mkdir(parents=True, exist_ok=True)] *)
Definition Path_mkdir (fs : filesystem) (p : Path) : filesystem * (errno + unit) :=
  mkdir_parents fs (absolute p) (rev (parts p)).

(** [Path(folder).is_dir()] *)
Definition Path_is_dir (fs : filesystem) (p : Path) : bool :=
  OS.is_dir fs (absolute p) (rev (parts p)).

(** ** [validate] *)

Definition missing_fields (cfg : Settings) : list string :=
  (if String.eqb (CLIENT_ID cfg) "" then ["EMOTIV_CLIENT_ID"] else [])
  ++ (if String.eqb (CLIENT_SECRET cfg) "" then ["EMOTIV_CLIENT_SECRET"] else []).

Definition NL : string := String (ascii_of_nat 10) "".

(** The text of the [RuntimeError], lines 94-100. *)
Definition missing_message (missing : list string) : string :=
  NL
  ++ "═══════════════════════════════════════════════════════════════╗" ++ NL
  ++ "  Missing Cortex credentials!                                  " ++ NL
  ++ "  Please copy `.env.example` → `.env` and fill in:            " ++ NL
  ++ "    " ++ Str.join ", " missing ++ "                                       " ++ NL
  ++ "  See: https://emotiv.gitbook.io/cortex-api#create-a-cortex-app" ++ NL
  ++ "═══════════════════════════════════════════════════════════════╝" ++ NL.

(** Lines 86-104.  The result pairs the filesystem left behind with
    either the exception raised or the normal return. *)
Definition validate (cfg : Settings) (fs : filesystem) : filesystem * (exn + unit) :=
  match missing_fields cfg with
  | [] =>
      match Path_mkdir fs (PurePath.of_string (EXPORT_FOLDER cfg)) with
      | (fs', inl e) => (fs', inl (OSError e))
      | (fs', inr _) => (fs', inr tt)
      end
  | missing => (fs, inl (RuntimeError (missing_message missing)))
  end.

(** ** The self-test, lines 110-127 *)

(** [print(s)] appends [s] and a newline to what was written so far. *)
Definition print (out s : string) : string := out ++ s ++ NL.

(** [str(b)] for a [bool]. *)
Definition str_bool (b : bool) : string := if b then "True" else "False".

(** [x or fallback] for a string [x]. *)
Definition or_else (x fallback : string) : string :=
  if String.eqb x "" then fallback else x.

Definition masked (secret : string) : string :=
  if String.eqb secret "" then "(not set)"
  else Str.repeat "*" (String.length secret).

Definition report_rows (cfg : Settings) : list (string * string) :=
  [ ("CLIENT_ID", or_else (CLIENT_ID cfg) "(not set)");
    ("CLIENT_SECRET", masked (CLIENT_SECRET cfg));
    ("HEADSET_ID", or_else (HEADSET_ID cfg) "(auto-detect)");
    ("LICENSE", or_else (LICENSE cfg) "(none)");
    ("DEBIT", pretty (DEBIT cfg));
    ("DEBUG", str_bool (DEBUG cfg));
    ("EXPORT_FOLDER", EXPORT_FOLDER cfg) ].

(** [f"  {key:<16} : {val}"] *)
Definition report_line (row : string * string) : string :=
  "  " ++ Str.ljust 16 row.1 ++ " : " ++ row.2.

Definition report_header (cfg : Settings) : string :=
  fold_left (fun out row => print out (report_line row)) (report_rows cfg)
            (print "" "=== Emotiv Cortex Configuration ===").

(** Running the module as a script: the filesystem left behind, the text
    written to standard output, and the exception that escapes, if any.
    Only [RuntimeError] is caught. *)
Definition main (cfg : Settings) (fs : filesystem)
  : filesystem * string * option exn :=
  let out := report_header cfg in
  match validate cfg fs with
  | (fs', inr _) => (fs', print out (NL ++ "✔  Configuration looks good!"), None)
  | (fs', inl (RuntimeError msg)) => (fs', print out msg, None)
  | (fs', inl e) => (fs', out, Some e)
  end.

(** ** When the export folder can be created *)

(** Nothing stands in the way at [loc]: it is a directory already, or
    it is absent and [parent], where it has to be created, accepts new
    entries. *)
Definition unobstructed (fs : filesystem) (loc parent : list string) : bool :=
  match OS.kind fs loc with
  | Some Dir => true
  | Some File => false
  | None => negb (bool_decide (parent ∈ readonly fs))
  end.

(** The way from [start] down the components [rparts] (innermost first)
    is clear: no component is [..] and every location on it is
    unobstructed. *)
Fixpoint clear_way (fs : filesystem) (start rparts : list string) : bool :=
  match rparts with
  | [] => true
  | name :: rparent =>
      negb (String.eqb name "..")
      && unobstructed fs (rparts ++ start) (rparent ++ start)
      && clear_way fs start rparent
  end.

(** Directory creation at [p] is possible: resolution starts in a
    directory and the way down to [p] is clear. *)
Definition creatable (fs : filesystem) (p : Path) : bool :=
  let st := OS.start fs (absolute p) in
  match OS.kind fs st with
  | Some Dir => true
  | _ => false
  end
  && clear_way fs st (rev (parts p)).

(** [fs'] has every entry of [fs], nothing new in it but directories,
    and the same protection and working directory. *)
Definition extends (fs fs' : filesystem) : Prop :=
  (forall loc k, OS.kind fs loc = Some k -> OS.kind fs' loc = Some k)
  /\ (forall loc, OS.kind fs' loc = Some File -> OS.kind fs loc = Some File)
  /\ readonly fs' = readonly fs /\ cwd fs' = cwd fs.

(** ** Changing the secret *)

(** The settings [cfg] with another client secret. *)
Definition with_secret (cfg : Settings) (secret : string) : Settings :=
  mkSettings (CLIENT_ID cfg) secret (HEADSET_ID cfg) (LICENSE cfg)
             (DEBIT cfg) (DEBUG cfg) (EXPORT_FOLDER cfg).

(** The lines of the report before the one of the secret, and after it. *)
Definition report_before (cfg : Settings) : string :=
  print (print "" "=== Emotiv Cortex Configuration ===")
        (report_line ("CLIENT_ID", or_else (CLIENT_ID cfg) "(not set)")).

Definition report_after (cfg : Settings) : string :=
  fold_left (fun out row => print out (report_line row))
            (skipn 2 (report_rows cfg)) "".

(** ** Numeric text *)

(** What the specification calls a numeric text, said without the
    scanner of [int()]: after the blanks around it and one leading sign
    are taken off, what is left is made of decimal digits, with single
    underscores allowed between two digits. *)
Module Numeric.

Definition is_digit (c : ascii) : bool :=
  let n := nat_of_ascii c in (48 <=? n)%nat && (n <=? 57)%nat.

(** The blanks that may surround a number: tab, line feed, vertical tab,
    form feed, carriage return, space, next line (U+0085) and no-break
    space (U+00A0). *)
Definition blanks : list ascii :=
  List.map ascii_of_nat [9; 10; 11; 12; 13; 32; 133; 160]%nat.

Definition is_blank (c : ascii) : bool := existsb (Ascii.eqb c) blanks.

(** The text without the blanks at its start. *)
Fixpoint drop_blanks (s : string) : string :=
  match s with
  | EmptyString => EmptyString
  | String c rest => if is_blank c then drop_blanks rest else s
  end.

(** The text without the blanks at its end. *)
Fixpoint rstrip (s : string) : string :=
  match s with
  | EmptyString => EmptyString
  | String c rest =>
      let r := rstrip rest in
      if is_blank c && String.eqb r "" then EmptyString else String c r
  end.

Definition unsigned (s : string) : string :=
  match s with
  | String c rest =>
      if Ascii.eqb c "+" || Ascii.eqb c "-" then rest else s
  | EmptyString => s
  end.

(** A digit; or a digit and more groups; or a digit, an underscore and
    more groups. *)
Fixpoint digit_groups (s : string) : bool :=
  match s with
  | EmptyString => false
  | String c rest =>
      is_digit c &&
      match rest with
      | EmptyString => true
      | String c' rest' =>
          if Ascii.eqb c' "_" then digit_groups rest' else digit_groups rest
      end
  end.

Definition numeric_text (s : string) : bool :=
  digit_groups (unsigned (rstrip (drop_blanks s))).

End Numeric.

(** ** The texts that switch [DEBUG] on *)

Definition is_lower (c : ascii) : bool :=
  let n := nat_of_ascii c in (97 <=? n)%nat && (n <=? 122)%nat.

Definition upper_char (c : ascii) : ascii :=
  if is_lower c then ascii_of_nat (nat_of_ascii c - 32) else c.

Fixpoint no_capital (s : string) : bool :=
  match s with
  | EmptyString => true
  | String c rest => negb (Str.is_upper c) && no_capital rest
  end.

(** Every way of writing [token] with each letter small or capital. *)
Fixpoint case_variants (token : string) : list string :=
  match token with
  | EmptyString => [EmptyString]
  | String c rest =>
      let vs := case_variants rest in
      List.map (String c) vs
      ++ (if is_lower c then List.map (String (upper_char c)) vs else [])
  end.

Definition debug_on_texts : list string :=
  case_variants "1" ++ case_variants "true" ++ case_variants "yes".

(** ** Further vocabulary for the properties *)

(** [os.path.isfile]: the path resolves to a regular file.  The path is
    given as for [OS.is_dir]. *)
Definition is_file (fs : filesystem) (abs : bool) (rparts : list string) : bool :=
  match rparts with
  | [] => false
  | name :: rparent =>
      match OS.lookup_dir fs (OS.start fs abs) (rev rparent) with
      | inr d =>
          match OS.kind fs (OS.step d name) with
          | Some File => true
          | _ => false
          end
      | inl _ => false
      end
  end.

(** [Path(folder).is_file()] *)
Definition Path_is_file (fs : filesystem) (p : Path) : bool :=
  is_file fs (absolute p) (rev (parts p)).

(** [c in s] for a character [c]. *)
Fixpoint has_char (c : ascii) (s : string) : bool :=
  match s with
  | EmptyString => false
  | String a rest => Ascii.eqb a c || has_char c rest
  end.

(** Some character of [s] is whitespace. *)
Fixpoint has_space (s : string) : bool :=
  match s with
  | EmptyString => false
  | String a rest => Str.is_space a || has_space rest
  end.

(** A name that can stand as one component of a path: not empty, not
    [.], and without a slash. *)
Definition component (name : string) : bool :=
  PurePath.keep_part name && negb (has_char "/" name).

(** ** Concrete machines for the examples *)

Module Sample.

Definition machine : Platform :=
  mkPlatform (mkPath true ["home"; "user"]) false None.

Definition credentials : gmap string string :=
  <["EMOTIV_CLIENT_ID" := "app-id"]>
    (<["EMOTIV_CLIENT_SECRET" := "app-secret"]> ∅).

(** [/srv] holds a regular file named [exports]. *)
Definition file_in_the_way : filesystem :=
  mkFS (<[ ["srv"] := Dir ]> (<[ ["exports"; "srv"] := File ]> ∅)) ∅ [].

(** [/var] exists and refuses new entries. *)
Definition read_only_parent : filesystem :=
  mkFS (<[ ["var"] := Dir ]> ∅) {[ ["var"] ]} [].

(** [/etc/passwd] is a regular file. *)
Definition file_as_parent : filesystem :=
  mkFS (<[ ["etc"] := Dir ]> (<[ ["passwd"; "etc"] := File ]> ∅)) ∅ [].

(** A home directory with a file in it, below a write-protected [/] and
    [/home]; the working directory is the home directory. *)
Definition workstation : filesystem :=
  mkFS (<[ ["home"] := Dir ]>
          (<[ ["user"; "home"] := Dir ]>
             (<[ ["notes.txt"; "user"; "home"] := File ]> ∅)))
       {[ []; ["home"] ]} ["user"; "home"].

Definition settings (id secret folder : string) : Settings :=
  mkSettings id secret "" "" 10 false folder.

End Sample.

(** * Properties *)

(** ** The runtime operations on concrete texts *)

Example int_25 : PyInt.parse "25" = Some 25%Z.
Proof. reflexivity. Qed.

Example int_padded : PyInt.parse "  -1_000 " = Some (-1000)%Z.
Proof. reflexivity. Qed.

Example int_bad :
  PyInt.parse "1__0" = None /\ PyInt.parse "ten" = None
  /\ PyInt.parse "" = None /\ PyInt.parse "12.5" = None
  /\ PyInt.parse "+ 1" = None /\ PyInt.parse "1_" = None.
Proof. repeat split; reflexivity. Qed.

Example path_parse :
  PurePath.of_string "/home//u/./x/" = mkPath true ["home"; "u"; "x"]
  /\ PurePath.of_string "a/../b" = mkPath false ["a"; ".."; "b"]
  /\ PurePath.of_string "" = mkPath false [].
Proof. repeat split; reflexivity. Qed.

(** ** Path resolution and directory creation *)

Section Filesystem.

Implicit Types (fs : filesystem) (cur rparts : list string) (abs : bool).

Lemma lookup_dir_app fs cur xs ys :
  OS.lookup_dir fs cur (xs ++ ys) =
  match OS.lookup_dir fs cur xs with
  | inr d => OS.lookup_dir fs d ys
  | inl e => inl e
  end.
Proof.
  revert cur. induction xs as [|x xs IH]; intros cur; simpl.
  - destruct (OS.kind fs cur) as [[|]|] eqn:K; try reflexivity;
      destruct ys; simpl; rewrite K; reflexivity.
  - destruct (OS.kind fs cur) as [[|]|]; try reflexivity. apply IH.
Qed.

Lemma lookup_dir_kind fs cur comps d :
  OS.lookup_dir fs cur comps = inr d -> OS.kind fs d = Some Dir.
Proof.
  revert cur. induction comps as [|c cs IH]; intros cur; simpl;
    destruct (OS.kind fs cur) as [[|]|] eqn:K; try discriminate.
  - intros [= <-]. exact K.
  - apply IH.
Qed.

Lemma extends_refl fs : extends fs fs.
Proof. repeat split; auto. Qed.

Lemma extends_trans fs1 fs2 fs3 :
  extends fs1 fs2 -> extends fs2 fs3 -> extends fs1 fs3.
Proof.
  intros (K1 & F1 & R1 & C1) (K2 & F2 & R2 & C2). repeat split.
  - intros loc k H. apply K2, K1, H.
  - intros loc H. apply F1, F2, H.
  - congruence.
  - congruence.
Qed.

Lemma extends_start fs fs' abs :
  extends fs fs' -> OS.start fs' abs = OS.start fs abs.
Proof. intros (_ & _ & _ & C). unfold OS.start. rewrite C. reflexivity. Qed.

Lemma lookup_dir_extends fs fs' cur comps d :
  extends fs fs' ->
  OS.lookup_dir fs cur comps = inr d -> OS.lookup_dir fs' cur comps = inr d.
Proof.
  intros E. revert cur. induction comps as [|c cs IH]; intros cur; simpl;
    destruct (OS.kind fs cur) as [[|]|] eqn:K; try discriminate;
    rewrite (proj1 E _ _ K).
  - auto.
  - apply IH.
Qed.

(** What a successful [os.mkdir] did. *)
Lemma os_mkdir_inr fs abs rparts fs' :
  OS.mkdir fs abs rparts = inr fs' ->
  exists name rparent d,
    rparts = name :: rparent
    /\ OS.lookup_dir fs (OS.start fs abs) (rev rparent) = inr d
    /\ String.eqb name ".." = false
    /\ OS.kind fs (name :: d) = None
    /\ (d ∉ readonly fs)
    /\ fs' = mkFS (<[name :: d := Dir]> (nodes fs)) (readonly fs) (cwd fs).
Proof.
  unfold OS.mkdir. destruct rparts as [|name rparent].
  - destruct (OS.lookup_dir _ _ _); discriminate.
  - destruct (OS.lookup_dir _ _ _) as [e|d] eqn:L; [discriminate|].
    destruct (String.eqb name "..") eqn:N; [discriminate|].
    destruct (OS.kind fs (name :: d)) eqn:K; [discriminate|].
    destruct (decide (d ∈ readonly fs)); [discriminate|].
    intros [= <-]. exists name, rparent, d. auto 10.
Qed.

Lemma insert_dir_extends fs loc :
  OS.kind fs loc = None ->
  extends fs (mkFS (<[loc := Dir]> (nodes fs)) (readonly fs) (cwd fs)).
Proof.
  intros K. repeat split.
  - intros l k H.
    destruct l as [|x l]; [exact H|]. simpl in *.
    destruct (decide (loc = x :: l)) as [->|Hne].
    + simpl in K. congruence.
    + rewrite lookup_insert_ne; auto.
  - intros l H. destruct l as [|x l]; [exact H|]. simpl in *.
    destruct (decide (loc = x :: l)) as [->|Hne].
    + rewrite lookup_insert_eq in H. discriminate.
    + rewrite lookup_insert_ne in H; auto.
Qed.

Lemma os_mkdir_extends fs abs rparts fs' :
  OS.mkdir fs abs rparts = inr fs' -> extends fs fs'.
Proof.
  intros H. apply os_mkdir_inr in H as (name & rp & d & _ & _ & _ & K & _ & ->).
  apply insert_dir_extends, K.
Qed.

Lemma os_mkdir_is_dir fs abs rparts fs' :
  OS.mkdir fs abs rparts = inr fs' -> OS.is_dir fs' abs rparts = true.
Proof.
  intros H. pose proof (os_mkdir_extends _ _ _ _ H) as E.
  apply os_mkdir_inr in H as (name & rp & d & -> & L & N & K & _ & ->).
  unfold OS.is_dir. rewrite (extends_start _ _ _ E). simpl rev.
  rewrite lookup_dir_app, (lookup_dir_extends _ _ _ _ _ E L). simpl.
  rewrite (proj1 E _ _ (lookup_dir_kind _ _ _ _ L)).
  unfold OS.step. rewrite N. simpl. rewrite lookup_insert_eq. reflexivity.
Qed.

(** On a directory that is there, [os.mkdir] answers [EEXIST]. *)
Lemma os_mkdir_existing fs abs rparts :
  OS.is_dir fs abs rparts = true -> OS.mkdir fs abs rparts = inl EEXIST.
Proof.
  unfold OS.is_dir, OS.mkdir. destruct rparts as [|name rp].
  - simpl. destruct (OS.kind fs _) as [[|]|]; congruence.
  - simpl rev. rewrite lookup_dir_app.
    destruct (OS.lookup_dir fs _ (rev rp)) as [e|d] eqn:L; [discriminate|].
    simpl. rewrite (lookup_dir_kind _ _ _ _ L).
    unfold OS.step. destruct (String.eqb name ".."); [reflexivity|].
    change (nodes fs !! (name :: d)) with (OS.kind fs (name :: d)).
    destruct (OS.kind fs (name :: d)) as [[|]|]; congruence.
Qed.

(** *** [Path.mkdir] *)

Lemma mkdir_parents_unfold fs abs rparts :
  mkdir_parents fs abs rparts =
  match OS.mkdir fs abs rparts with
  | inl ENOENT =>
      match rparts with
      | [] => (fs, inl ENOENT)
      | _ :: rparent =>
          match mkdir_parents fs abs rparent with
          | (fs1, inl e) => (fs1, inl e)
          | (fs1, inr _) => mkdir_exist_ok fs1 abs rparts
          end
      end
  | _ => mkdir_exist_ok fs abs rparts
  end.
Proof.
  destruct rparts as [|name rp]; unfold mkdir_exist_ok; cbn [mkdir_parents];
    [destruct (OS.mkdir fs abs []) as [[]|]
    |destruct (OS.mkdir fs abs (name :: rp)) as [[]|]]; reflexivity.
Qed.

Lemma mkdir_exist_ok_is_dir fs abs rparts fs' u :
  mkdir_exist_ok fs abs rparts = (fs', inr u) -> OS.is_dir fs' abs rparts = true.
Proof.
  unfold mkdir_exist_ok.
  destruct (OS.mkdir fs abs rparts) as [e|fs1] eqn:M.
  - destruct (OS.is_dir fs abs rparts) eqn:D; destruct e; congruence.
  - intros [= <- _]. eapply os_mkdir_is_dir, M.
Qed.

Lemma mkdir_exist_ok_extends fs abs rparts fs' r :
  mkdir_exist_ok fs abs rparts = (fs', r) -> extends fs fs'.
Proof.
  unfold mkdir_exist_ok.
  destruct (OS.mkdir fs abs rparts) as [e|fs1] eqn:M.
  - destruct (OS.is_dir fs abs rparts), e; intros [= <- _]; apply extends_refl.
  - intros [= <- _]. eapply os_mkdir_extends, M.
Qed.

(** After a call that returns, the path is a directory. *)
Lemma mkdir_parents_is_dir fs abs rparts fs' u :
  mkdir_parents fs abs rparts = (fs', inr u) -> OS.is_dir fs' abs rparts = true.
Proof.
  rewrite mkdir_parents_unfold.
  destruct (OS.mkdir fs abs rparts) as [[]|];
    try apply mkdir_exist_ok_is_dir.
  destruct rparts as [|name rp]; [discriminate|].
  destruct (mkdir_parents fs abs rp) as [fs1 [e|?]]; [discriminate|].
  apply mkdir_exist_ok_is_dir.
Qed.

(** A path that is a directory already is left alone. *)
Lemma mkdir_parents_existing fs abs rparts :
  OS.is_dir fs abs rparts = true -> mkdir_parents fs abs rparts = (fs, inr tt).
Proof.
  intros D. rewrite mkdir_parents_unfold, (os_mkdir_existing _ _ _ D).
  unfold mkdir_exist_ok. rewrite (os_mkdir_existing _ _ _ D), D. reflexivity.
Qed.

(** Whatever the outcome, nothing is removed or replaced. *)
Lemma mkdir_parents_extends fs abs rparts :
  forall fs' r, mkdir_parents fs abs rparts = (fs', r) -> extends fs fs'.
Proof.
  revert fs. induction rparts as [|name rp IH]; intros fs fs' r;
    rewrite mkdir_parents_unfold;
    destruct (OS.mkdir fs abs _) as [[]|] eqn:M;
    try apply mkdir_exist_ok_extends.
  - intros [= <- _]. apply extends_refl.
  - destruct (mkdir_parents fs abs rp) as [fs1 [e|?]] eqn:P.
    + intros [= <- _]. eapply IH, P.
    + intros H. eapply extends_trans; [eapply IH, P|].
      eapply mkdir_exist_ok_extends, H.
Qed.

(** *** A clear way is enough *)

Lemma lookup_dir_snoc fs cur comps name d :
  OS.lookup_dir fs cur comps = inr d ->
  String.eqb name ".." = false ->
  OS.lookup_dir fs cur (comps ++ [name]) =
  match OS.kind fs (name :: d) with
  | Some Dir => inr (name :: d)
  | Some File => inl ENOTDIR
  | None => inl ENOENT
  end.
Proof.
  intros L N. rewrite lookup_dir_app, L. simpl.
  rewrite (lookup_dir_kind _ _ _ _ L). unfold OS.step. rewrite N. reflexivity.
Qed.

Lemma clear_way_cons fs st name rp :
  clear_way fs st (name :: rp) = true ->
  String.eqb name ".." = false
  /\ OS.kind fs (name :: rp ++ st)%list <> Some File
  /\ (OS.kind fs (name :: rp ++ st)%list = None -> (rp ++ st)%list ∉ readonly fs)
  /\ clear_way fs st rp = true.
Proof.
  cbn [clear_way]. intros H. apply andb_prop in H as [H C].
  apply andb_prop in H as [N U]. apply negb_true_iff in N.
  unfold unobstructed in U.
  change ((name :: rp) ++ st)%list with (name :: (rp ++ st))%list in U.
  repeat split; auto.
  - intros E. rewrite E in U. discriminate.
  - intros E. rewrite E in U.
    apply negb_true_iff, bool_decide_eq_false in U. exact U.
Qed.

(** A clear way stays clear when directories are added. *)
Lemma clear_way_extends fs fs' st rparts :
  extends fs fs' -> clear_way fs st rparts = true -> clear_way fs' st rparts = true.
Proof.
  intros (EK & EF & ER & _). induction rparts as [|name rp IH]; [reflexivity|].
  intros C. apply clear_way_cons in C as (N & F & W & C).
  cbn [clear_way]. rewrite N, (IH C), andb_true_r. simpl.
  unfold unobstructed.
  change ((name :: rp) ++ st)%list with (name :: (rp ++ st))%list.
  destruct (OS.kind fs' (name :: rp ++ st)%list) as [[|]|] eqn:K'.
  - reflexivity.
  - elim F. apply EF, K'.
  - rewrite ER. apply negb_true_iff, bool_decide_eq_false, W.
    destruct (OS.kind fs (name :: rp ++ st)%list) as [k|] eqn:K; [|reflexivity].
    rewrite (EK _ _ K) in K'. discriminate.
Qed.

(** Resolution along a clear way ends where the components say, or
    stops at a missing directory. *)
Lemma lookup_dir_clear fs st rparts :
  OS.kind fs st = Some Dir ->
  clear_way fs st rparts = true ->
  OS.lookup_dir fs st (rev rparts) = inr (rparts ++ st)%list
  \/ OS.lookup_dir fs st (rev rparts) = inl ENOENT.
Proof.
  intros K. induction rparts as [|name rp IH]; simpl rev.
  - simpl. rewrite K. auto.
  - intros C. apply clear_way_cons in C as (N & F & _ & C).
    destruct (IH C) as [L|L].
    + rewrite (lookup_dir_snoc _ _ _ _ _ L N).
      destruct (OS.kind fs (name :: rp ++ st)%list) as [[|]|]; auto.
      congruence.
    + rewrite lookup_dir_app, L. auto.
Qed.

(** The last step of the creation, once the parent is in place. *)
Lemma mkdir_exist_ok_clear fs abs name rp :
  let st := OS.start fs abs in
  OS.lookup_dir fs st (rev rp) = inr (rp ++ st)%list ->
  clear_way fs st (name :: rp) = true ->
  exists fs', mkdir_exist_ok fs abs (name :: rp) = (fs', inr tt).
Proof.
  intros st L C. apply clear_way_cons in C as (N & F & W & _).
  unfold mkdir_exist_ok.
  destruct (OS.mkdir fs abs (name :: rp)) as [e|fs1] eqn:M; [|eauto].
  assert (E : e = EEXIST /\ OS.is_dir fs abs (name :: rp) = true).
  { unfold OS.mkdir in M. fold st in M. rewrite L, N in M.
    unfold OS.is_dir. fold st. simpl rev.
    rewrite (lookup_dir_snoc _ _ _ _ _ L N).
    destruct (OS.kind fs (name :: rp ++ st)%list) as [[|]|]; try congruence.
    - split; congruence.
    - destruct (decide ((rp ++ st)%list ∈ readonly fs)) as [R|R];
        [|discriminate]. elim (W eq_refl R). }
  destruct E as [-> ->]. eauto.
Qed.

Lemma mkdir_parents_clear abs rparts :
  forall fs,
    let st := OS.start fs abs in
    OS.kind fs st = Some Dir ->
    clear_way fs st rparts = true ->
    exists fs', mkdir_parents fs abs rparts = (fs', inr tt).
Proof.
  induction rparts as [|name rp IH]; intros fs st K C.
  - rewrite mkdir_parents_existing; [eauto|].
    unfold OS.is_dir. fold st. simpl. rewrite K. reflexivity.
  - pose proof (clear_way_cons _ _ _ _ C) as (N & F & W & C').
    rewrite mkdir_parents_unfold.
    destruct (lookup_dir_clear fs st rp K C') as [L|L].
    + destruct (mkdir_exist_ok_clear fs abs name rp L C) as [fs' M].
      rewrite M.
      destruct (OS.mkdir fs abs (name :: rp)) as [[]|] eqn:O; eauto.
      unfold OS.mkdir in O. fold st in O. rewrite L, N in O.
      destruct (OS.kind fs (name :: rp ++ st)%list); [discriminate|].
      destruct (decide ((rp ++ st)%list ∈ readonly fs)); discriminate.
    + assert (O : OS.mkdir fs abs (name :: rp) = inl ENOENT)
        by (unfold OS.mkdir; fold st; rewrite L; reflexivity).
      rewrite O. destruct (IH fs K C') as [fs1 P]. rewrite P.
      pose proof (mkdir_parents_extends _ _ _ _ _ P) as E.
      pose proof (mkdir_parents_is_dir _ _ _ _ _ P) as D.
      pose proof (extends_start _ _ abs E) as S1.
      pose proof (clear_way_extends _ _ _ _ E C) as C1.
      pose proof (clear_way_cons _ _ _ _ C1) as (_ & _ & _ & C1').
      destruct (lookup_dir_clear fs1 st rp (proj1 E _ _ K) C1') as [L1|L1].
      * apply mkdir_exist_ok_clear; rewrite ?S1; fold st; assumption.
      * unfold OS.is_dir in D. rewrite S1 in D. fold st in D.
        rewrite L1 in D. discriminate.
Qed.

End Filesystem.

(** ** [validate] *)

Section Validate.

Implicit Types (cfg : Settings) (fs : filesystem).

Lemma missing_fields_nil cfg :
  missing_fields cfg = [] <-> CLIENT_ID cfg <> "" /\ CLIENT_SECRET cfg <> "".
Proof.
  unfold missing_fields.
  destruct (String.eqb_spec (CLIENT_ID cfg) "") as [->|Hi];
    destruct (String.eqb_spec (CLIENT_SECRET cfg) "") as [->|Hs]; simpl;
    split; try discriminate; try tauto; intros [? ?]; congruence.
Qed.

(** With both credentials present, [validate] is the directory
    creation. *)
Lemma validate_present cfg fs :
  CLIENT_ID cfg <> "" -> CLIENT_SECRET cfg <> "" ->
  validate cfg fs =
  match Path_mkdir fs (PurePath.of_string (EXPORT_FOLDER cfg)) with
  | (fs', inl e) => (fs', inl (OSError e))
  | (fs', inr _) => (fs', inr tt)
  end.
Proof.
  intros Hi Hs. unfold validate.
  rewrite (proj2 (missing_fields_nil cfg) (conj Hi Hs)). reflexivity.
Qed.

(** With a credential missing, [validate] raises at once. *)
Lemma validate_missing cfg fs :
  CLIENT_ID cfg = "" \/ CLIENT_SECRET cfg = "" ->
  validate cfg fs =
  (fs, inl (RuntimeError (missing_message (missing_fields cfg)))).
Proof.
  intros H. unfold validate.
  destruct (missing_fields cfg) eqn:M; [|reflexivity].
  apply missing_fields_nil in M. tauto.
Qed.

Lemma validate_creatable cfg fs :
  CLIENT_ID cfg <> "" -> CLIENT_SECRET cfg <> "" ->
  creatable fs (PurePath.of_string (EXPORT_FOLDER cfg)) = true ->
  exists fs', validate cfg fs = (fs', inr tt).
Proof.
  intros Hi Hs C. rewrite (validate_present _ _ Hi Hs).
  unfold creatable in C. apply andb_prop in C as [K W].
  destruct (mkdir_parents_clear
              (absolute (PurePath.of_string (EXPORT_FOLDER cfg)))
              (rev (parts (PurePath.of_string (EXPORT_FOLDER cfg)))) fs)
    as [fs' M]; auto.
  - destruct (OS.kind fs _) as [[|]|]; congruence.
  - unfold Path_mkdir. rewrite M. eauto.
Qed.

(** A normal return leaves the export folder in place and removes
    nothing. *)
Lemma validate_returns cfg fs fs' :
  validate cfg fs = (fs', inr tt) ->
  Path_is_dir fs' (PurePath.of_string (EXPORT_FOLDER cfg)) = true
  /\ extends fs fs'.
Proof.
  unfold validate. destruct (missing_fields cfg); [|discriminate].
  unfold Path_mkdir, Path_is_dir.
  destruct (mkdir_parents fs _ _) as [fs1 [e|u]] eqn:M; [discriminate|].
  intros [= <-]. split.
  - eapply mkdir_parents_is_dir, M.
  - eapply mkdir_parents_extends, M.
Qed.

(** An export folder that is there already is no cause of failure. *)
Lemma validate_existing cfg fs :
  CLIENT_ID cfg <> "" -> CLIENT_SECRET cfg <> "" ->
  Path_is_dir fs (PurePath.of_string (EXPORT_FOLDER cfg)) = true ->
  validate cfg fs = (fs, inr tt).
Proof.
  intros Hi Hs D. rewrite (validate_present _ _ Hi Hs).
  unfold Path_mkdir. rewrite (mkdir_parents_existing _ _ _ D). reflexivity.
Qed.

(** The only exceptions of [validate] are its own [RuntimeError], raised
    exactly when a credential is missing, and the [OSError] of the
    directory creation, passed on as it is. *)
Lemma validate_raises cfg fs fs' e :
  validate cfg fs = (fs', inl e) ->
  (fs' = fs /\ e = RuntimeError (missing_message (missing_fields cfg))
   /\ (CLIENT_ID cfg = "" \/ CLIENT_SECRET cfg = ""))
  \/ (exists code, e = OSError code
      /\ Path_mkdir fs (PurePath.of_string (EXPORT_FOLDER cfg)) = (fs', inl code)
      /\ CLIENT_ID cfg <> "" /\ CLIENT_SECRET cfg <> "").
Proof.
  destruct (String.eqb_spec (CLIENT_ID cfg) "") as [Hi|Hi];
    [|destruct (String.eqb_spec (CLIENT_SECRET cfg) "") as [Hs|Hs]].
  - rewrite validate_missing by auto. intros [= <- <-]. left. auto.
  - rewrite validate_missing by auto. intros [= <- <-]. left. auto.
  - rewrite validate_present by auto.
    destruct (Path_mkdir fs _) as [fs1 [code|u]]; [|discriminate].
    intros [= <- <-]. right. eauto.
Qed.

End Validate.

(** ** The claims about [validate] *)

(** C1.  Whenever the client id or the client secret (or both) is empty,
    [validate] fails with its [RuntimeError], the module's configuration
    error.  The message names every missing field, and no field that is
    present: with both missing, both names are in it.  It also carries
    the pointer to the setup instructions. *)
Theorem validate_reports_every_missing_field (cfg : Settings) (fs : filesystem) :
  CLIENT_ID cfg = "" \/ CLIENT_SECRET cfg = "" ->
  exists msg,
    (validate cfg fs).2 = inl (RuntimeError msg)
    /\ (CLIENT_ID cfg = "" <-> Str.contains "EMOTIV_CLIENT_ID" msg = true)
    /\ (CLIENT_SECRET cfg = "" <-> Str.contains "EMOTIV_CLIENT_SECRET" msg = true)
    /\ Str.contains
         "See: https://emotiv.gitbook.io/cortex-api#create-a-cortex-app" msg
       = true.
Proof.
  intros H. rewrite (validate_missing _ _ H). eexists. split; [reflexivity|].
  unfold missing_fields.
  destruct (String.eqb_spec (CLIENT_ID cfg) "") as [Hi|Hi];
    destruct (String.eqb_spec (CLIENT_SECRET cfg) "") as [Hs|Hs];
    try tauto;
    (split; [|split]; [split; intros E | split; intros E | ]);
    first [ reflexivity | assumption | contradiction
          | vm_compute in E; discriminate ].
Qed.

Lemma validate_reports_every_missing_field_witness :
  let cfg := Sample.settings "" "" "/srv/exports" in
  (CLIENT_ID cfg = "" \/ CLIENT_SECRET cfg = "")
  /\ exists msg,
      (validate cfg Sample.file_in_the_way).2 = inl (RuntimeError msg)
      /\ (CLIENT_ID cfg = "" <-> Str.contains "EMOTIV_CLIENT_ID" msg = true)
      /\ (CLIENT_SECRET cfg = "" <-> Str.contains "EMOTIV_CLIENT_SECRET" msg = true)
      /\ Str.contains
           "See: https://emotiv.gitbook.io/cortex-api#create-a-cortex-app" msg
         = true.
Proof.
  split; [left; reflexivity|].
  apply (validate_reports_every_missing_field
           (Sample.settings "" "" "/srv/exports") Sample.file_in_the_way).
  left; reflexivity.
Defined.

(** C9.  A failing credential check leaves the filesystem as it was:
    the exception is raised before the export folder, or any other
    directory, is created. *)
Theorem validate_failure_touches_nothing (cfg : Settings) (fs : filesystem) :
  CLIENT_ID cfg = "" \/ CLIENT_SECRET cfg = "" ->
  (exists msg, (validate cfg fs).2 = inl (RuntimeError msg))
  /\ (validate cfg fs).1 = fs.
Proof.
  intros H. rewrite (validate_missing _ _ H). simpl. eauto.
Qed.

Lemma validate_failure_touches_nothing_witness :
  let cfg := Sample.settings "app-id" "" "records/run1" in
  (CLIENT_ID cfg = "" \/ CLIENT_SECRET cfg = "")
  /\ (exists msg, (validate cfg Sample.workstation).2 = inl (RuntimeError msg))
  /\ (validate cfg Sample.workstation).1 = Sample.workstation.
Proof.
  split; [right; reflexivity|].
  apply (validate_failure_touches_nothing
           (Sample.settings "app-id" "" "records/run1") Sample.workstation).
  right; reflexivity.
Defined.

(** C2, as stated, fails: both credentials are set, yet [validate] raises
    [FileExistsError] because the export folder names a regular file, and
    no directory is there afterwards. *)
Lemma validate_can_fail_with_credentials :
  let environ := <["EMOTIV_EXPORT_FOLDER" := "/srv/exports"]> Sample.credentials in
  exists cfg,
    import_config Sample.machine environ = inr cfg
    /\ CLIENT_ID cfg <> "" /\ CLIENT_SECRET cfg <> ""
    /\ (validate cfg Sample.file_in_the_way).2 = inl (OSError EEXIST)
    /\ Path_is_dir (validate cfg Sample.file_in_the_way).1
         (PurePath.of_string (EXPORT_FOLDER cfg)) = false.
Proof.
  eexists. split; [vm_compute; reflexivity|].
  repeat split; try discriminate; vm_compute; reflexivity.
Qed.

(** C2, amended.  With both credentials non-empty, whenever [validate]
    returns normally the export folder is a directory afterwards, every
    missing parent having been created and nothing having been removed
    or replaced; and [validate] does return normally, changing nothing,
    when the export folder is a directory already. *)
Theorem validate_creates_export_folder (cfg : Settings) (fs : filesystem) :
  CLIENT_ID cfg <> "" -> CLIENT_SECRET cfg <> "" ->
  let p := PurePath.of_string (EXPORT_FOLDER cfg) in
  (forall fs',
     validate cfg fs = (fs', inr tt) ->
     Path_is_dir fs' p = true
     /\ (forall rp, rp `suffix_of` rev (parts p) ->
         OS.is_dir fs' (absolute p) rp = true)
     /\ extends fs fs')
  /\ (Path_is_dir fs p = true -> validate cfg fs = (fs, inr tt)).
Proof.
  intros Hi Hs p. split.
  - intros fs' V. destruct (validate_returns _ _ _ V) as [D E].
    split; [exact D|]. split; [|exact E].
    intros rp [k S]. unfold Path_is_dir in D. fold p in D. rewrite S in D.
    clear S. induction k as [|name k IH]; [exact D|].
    apply IH. unfold OS.is_dir in D |- *.
    change ((name :: k) ++ rp)%list with (name :: (k ++ rp))%list in D.
    simpl rev in D. rewrite lookup_dir_app in D.
    destruct (OS.lookup_dir fs' _ (rev (k ++ rp))); [discriminate|reflexivity].
  - intros D. apply validate_existing; assumption.
Qed.

Lemma validate_creates_export_folder_witness :
  let cfg := Sample.settings "app-id" "app-secret" "/home/user/cortex_exports/run1" in
  let p := PurePath.of_string (EXPORT_FOLDER cfg) in
  let fs' := (validate cfg Sample.workstation).1 in
  CLIENT_ID cfg <> "" /\ CLIENT_SECRET cfg <> ""
  /\ validate cfg Sample.workstation = (fs', inr tt)
  /\ Path_is_dir Sample.workstation p = false
  /\ Path_is_dir fs' p = true
  /\ extends Sample.workstation fs'.
Proof.
  split; [discriminate|]. split; [discriminate|].
  assert (V : validate
                (Sample.settings "app-id" "app-secret"
                   "/home/user/cortex_exports/run1") Sample.workstation
              = ((validate
                    (Sample.settings "app-id" "app-secret"
                       "/home/user/cortex_exports/run1") Sample.workstation).1,
                 inr tt)) by (vm_compute; reflexivity).
  split; [exact V|]. split; [reflexivity|].
  destruct (proj1 (validate_creates_export_folder
                     (Sample.settings "app-id" "app-secret"
                        "/home/user/cortex_exports/run1")
                     Sample.workstation ltac:(discriminate) ltac:(discriminate))
                  _ V) as (D & _ & E).
  split; [exact D|exact E].
Defined.

(** C7, as stated, fails: the configuration is valid, yet both calls raise
    [PermissionError], the parent of the export folder being
    write-protected. *)
Lemma validate_twice_can_fail :
  let cfg := Sample.settings "app-id" "app-secret" "/var/exports" in
  CLIENT_ID cfg <> "" /\ CLIENT_SECRET cfg <> ""
  /\ (validate cfg Sample.read_only_parent).2 = inl (OSError EACCES)
  /\ (validate cfg (validate cfg Sample.read_only_parent).1).2
     = inl (OSError EACCES).
Proof. repeat split; try discriminate; vm_compute; reflexivity. Qed.

(** C7, amended.  For a valid configuration, a call of [validate] that
    returns normally is followed by a second call that returns normally
    too and changes nothing: the export folder being there is never a
    cause of failure.  Both calls return normally whenever creation of
    the export folder is possible. *)
Theorem validate_twice (cfg : Settings) (fs : filesystem) :
  CLIENT_ID cfg <> "" -> CLIENT_SECRET cfg <> "" ->
  (forall fs1, validate cfg fs = (fs1, inr tt) -> validate cfg fs1 = (fs1, inr tt))
  /\ (creatable fs (PurePath.of_string (EXPORT_FOLDER cfg)) = true ->
      exists fs1,
        validate cfg fs = (fs1, inr tt) /\ validate cfg fs1 = (fs1, inr tt)).
Proof.
  intros Hi Hs.
  assert (Again : forall fs1,
    validate cfg fs = (fs1, inr tt) -> validate cfg fs1 = (fs1, inr tt)).
  { intros fs1 V. apply validate_existing; auto.
    apply (validate_returns _ _ _ V). }
  split; [exact Again|].
  intros C. destruct (validate_creatable _ _ Hi Hs C) as [fs1 V]. eauto.
Qed.

Lemma validate_twice_witness :
  let cfg := Sample.settings "app-id" "app-secret" "/home/user/cortex_exports/run1" in
  let fs1 := (validate cfg Sample.workstation).1 in
  CLIENT_ID cfg <> "" /\ CLIENT_SECRET cfg <> ""
  /\ validate cfg Sample.workstation = (fs1, inr tt)
  /\ validate cfg fs1 = (fs1, inr tt).
Proof.
  split; [discriminate|]. split; [discriminate|].
  assert (V : validate (Sample.settings "app-id" "app-secret" "/home/user/cortex_exports/run1")
                Sample.workstation
              = ((validate (Sample.settings "app-id" "app-secret" "/home/user/cortex_exports/run1")
                    Sample.workstation).1, inr tt)) by (vm_compute; reflexivity).
  split; [exact V|].
  apply (proj1 (validate_twice
                  (Sample.settings "app-id" "app-secret" "/home/user/cortex_exports/run1")
                  Sample.workstation ltac:(discriminate) ltac:(discriminate))).
  exact V.
Defined.

(** C10, as stated, fails: both credentials are whitespace, hence
    present, yet [validate] raises [NotADirectoryError], a regular file
    lying on the way to the export folder. *)
Lemma whitespace_credentials_can_fail :
  let cfg := Sample.settings " " "   " "/etc/passwd/exports" in
  Str.isspace (CLIENT_ID cfg) = true /\ Str.isspace (CLIENT_SECRET cfg) = true
  /\ (validate cfg Sample.file_as_parent).2 = inl (OSError ENOTDIR).
Proof. repeat split; vm_compute; reflexivity. Qed.

(** C10, amended.  The credential check is plain non-emptiness, without
    trimming: a client id and a client secret made of whitespace only
    count as present, so [validate] raises no configuration error, goes on
    to the directory creation, and returns normally whenever that
    creation is possible. *)
Theorem whitespace_credentials_are_present (cfg : Settings) (fs : filesystem) :
  Str.isspace (CLIENT_ID cfg) = true -> Str.isspace (CLIENT_SECRET cfg) = true ->
  missing_fields cfg = []
  /\ (forall msg, (validate cfg fs).2 <> inl (RuntimeError msg))
  /\ (creatable fs (PurePath.of_string (EXPORT_FOLDER cfg)) = true ->
      exists fs', validate cfg fs = (fs', inr tt)).
Proof.
  intros Wi Ws.
  assert (Hi : CLIENT_ID cfg <> "")
    by (intros E; rewrite E in Wi; discriminate).
  assert (Hs : CLIENT_SECRET cfg <> "")
    by (intros E; rewrite E in Ws; discriminate).
  split; [apply missing_fields_nil; auto|]. split.
  - intros msg. rewrite (validate_present _ _ Hi Hs).
    destruct (Path_mkdir fs _) as [fs' [e|u]]; discriminate.
  - apply validate_creatable; auto.
Qed.

Lemma whitespace_credentials_are_present_witness :
  let cfg := Sample.settings " " "   " "/home/user/cortex_exports/run1" in
  Str.isspace (CLIENT_ID cfg) = true /\ Str.isspace (CLIENT_SECRET cfg) = true
  /\ missing_fields cfg = []
  /\ (forall msg, (validate cfg Sample.workstation).2 <> inl (RuntimeError msg))
  /\ (creatable Sample.workstation (PurePath.of_string (EXPORT_FOLDER cfg)) = true ->
      exists fs', validate cfg Sample.workstation = (fs', inr tt)).
Proof.
  split; [reflexivity|]. split; [reflexivity|].
  apply (whitespace_credentials_are_present
           (Sample.settings " " "   " "/home/user/cortex_exports/run1") Sample.workstation);
    reflexivity.
Defined.

(** ** The settings file *)

Section SettingsFile.

Implicit Types (environ : gmap string string)
               (bindings : list (string * option string)).

Lemma set_variable_lookup k v environ j :
  Dotenv.set_variable k v environ !! j =
  match environ !! j with
  | Some old => Some old
  | None => if decide (k = j) then v else None
  end.
Proof.
  unfold Dotenv.set_variable. destruct (decide (k = j)) as [->|Hne].
  - destruct (environ !! j) eqn:E; [exact E|].
    destruct v; [apply lookup_insert_eq | exact E].
  - destruct (environ !! k), v; try reflexivity;
      try (destruct (environ !! j); reflexivity).
    rewrite lookup_insert_ne by exact Hne.
    destruct (environ !! j); reflexivity.
Qed.

(** The environment after [load_dotenv], key by key: what was there
    stays, and what was not comes from the file. *)
Lemma load_dotenv_lookup bindings environ j :
  Dotenv.load_dotenv bindings environ !! j =
  match environ !! j with
  | Some old => Some old
  | None => mjoin (Dotenv.as_dict bindings !! j)
  end.
Proof.
  unfold Dotenv.load_dotenv. generalize (Dotenv.as_dict bindings). intros d.
  apply (map_fold_weak_ind
           (fun r (m : gmap string (option string)) =>
              r !! j = match environ !! j with
                       | Some old => Some old
                       | None => mjoin (m !! j)
                       end)).
  - rewrite lookup_empty. destruct (environ !! j); reflexivity.
  - intros i x m r Hi IH. rewrite set_variable_lookup, IH.
    destruct (environ !! j) as [old|]; [reflexivity|].
    destruct (decide (i = j)) as [->|Hne].
    + rewrite Hi, lookup_insert_eq. reflexivity.
    + rewrite lookup_insert_ne by exact Hne.
      destruct (mjoin (m !! j)); reflexivity.
Qed.

(** The last binding of a key is the one the dictionary keeps. *)
Lemma as_dict_snoc bindings k v :
  Dotenv.as_dict (bindings ++ [(k, v)]) = <[k := v]> (Dotenv.as_dict bindings).
Proof. unfold Dotenv.as_dict. rewrite fold_left_app. reflexivity. Qed.

Lemma initialize_lookup pf environ j :
  initialize pf environ !! j =
  match environ !! j with
  | Some old => Some old
  | None =>
      if dotenv_installed pf then
        match env_file pf with
        | Some bindings => mjoin (Dotenv.as_dict bindings !! j)
        | None => None
        end
      else None
  end.
Proof.
  unfold initialize. destruct (dotenv_installed pf), (env_file pf);
    rewrite ?load_dotenv_lookup; destruct (environ !! j); reflexivity.
Qed.

End SettingsFile.

(** C4.  A variable that the environment holds before the module is
    imported keeps its value: the settings file injects a key only when
    the key is not present, whatever value the file gives it. *)
Theorem settings_file_never_overrides
    (pf : Platform) (environ : gmap string string) (k v : string) :
  environ !! k = Some v -> initialize pf environ !! k = Some v.
Proof. intros H. rewrite initialize_lookup, H. reflexivity. Qed.

Lemma settings_file_never_overrides_witness :
  let pf := mkPlatform (mkPath true ["home"; "user"]) true
              (Some [("EMOTIV_CLIENT_ID", Some "from-file");
                     ("EMOTIV_DEBIT", Some "25")]) in
  Sample.credentials !! "EMOTIV_CLIENT_ID" = Some "app-id"
  /\ initialize pf Sample.credentials !! "EMOTIV_DEBIT" = Some "25"
  /\ initialize pf Sample.credentials !! "EMOTIV_CLIENT_ID" = Some "app-id".
Proof.
  split; [reflexivity|]. split; [reflexivity|].
  apply (settings_file_never_overrides
           (mkPlatform (mkPath true ["home"; "user"]) true
              (Some [("EMOTIV_CLIENT_ID", Some "from-file");
                     ("EMOTIV_DEBIT", Some "25")]))
           Sample.credentials "EMOTIV_CLIENT_ID" "app-id").
  reflexivity.
Defined.

(** ** Reading the settings *)

Section Load.

Implicit Types (pf : Platform) (environ : gmap string string).

(** A load that succeeds gives these seven values. *)
Lemma load_settings_inr pf environ cfg :
  load_settings pf environ = inr cfg ->
  exists debit,
    PyInt.parse (getenv environ "EMOTIV_DEBIT" "10") = Some debit
    /\ cfg = mkSettings
               (getenv environ "EMOTIV_CLIENT_ID" "")
               (getenv environ "EMOTIV_CLIENT_SECRET" "")
               (getenv environ "EMOTIV_HEADSET_ID" "")
               (getenv environ "EMOTIV_LICENSE" "")
               debit
               (coerce_bool (getenv environ "EMOTIV_DEBUG" "false"))
               (getenv environ "EMOTIV_EXPORT_FOLDER" (default_export_folder pf)).
Proof.
  unfold load_settings, coerce_int.
  destruct (PyInt.parse _) as [z|]; [|discriminate].
  intros [= <-]. eauto.
Qed.


Lemma getenv_absent environ key default :
  environ !! key = None -> getenv environ key default = default.
Proof. unfold getenv. intros ->. reflexivity. Qed.

Lemma getenv_present environ key default v :
  environ !! key = Some v -> getenv environ key default = v.
Proof. unfold getenv. intros ->. reflexivity. Qed.

End Load.

(** ** Boolean coercion *)

Section Lowercase.

Lemma lower_char_fixed c : Str.is_upper c = false -> Str.lower_char c = c.
Proof. unfold Str.lower_char. intros ->. reflexivity. Qed.

Lemma lower_upper_char c : is_lower c = true -> Str.lower_char (upper_char c) = c.
Proof.
  destruct c as [[] [] [] [] [] [] [] []]; intros H;
    first [discriminate H | reflexivity].
Qed.

Lemma lower_char_inv a :
  a = Str.lower_char a
  \/ (is_lower (Str.lower_char a) = true /\ a = upper_char (Str.lower_char a)).
Proof.
  destruct a as [[] [] [] [] [] [] [] []];
    first [left; reflexivity | right; split; reflexivity].
Qed.

(** The texts that [lower] sends to [token] are its case variants. *)
Lemma lower_case_variants token :
  no_capital token = true ->
  forall text, Str.lower text = token <-> In text (case_variants token).
Proof.
  induction token as [|c rest IH]; intros NC text.
  - destruct text; simpl; split; intros H; try discriminate; auto.
    destruct H as [H|[]]. discriminate.
  - simpl in NC. apply andb_prop in NC as [Uc NC].
    apply negb_true_iff in Uc. specialize (IH NC).
    destruct text as [|a text']; simpl.
    + split; [discriminate|]. rewrite in_app_iff, !in_map_iff.
      intros [(? & E & _)|H]; [discriminate|].
      destruct (is_lower c); [|destruct H].
      apply in_map_iff in H as (? & E & _). discriminate.
    + rewrite in_app_iff. split.
      * intros [= Hc Hr]. apply IH in Hr.
        destruct (lower_char_inv a) as [E|[L E]]; rewrite Hc in *.
        -- left. rewrite E. apply in_map, Hr.
        -- right. rewrite L, E. apply in_map, Hr.
      * intros [H|H].
        -- apply in_map_iff in H as (v & [= <- <-] & Hv).
           apply IH in Hv. rewrite Hv, (lower_char_fixed _ Uc). reflexivity.
        -- destruct (is_lower c) eqn:L; [|destruct H].
           apply in_map_iff in H as (v & [= <- <-] & Hv).
           apply IH in Hv. rewrite Hv, (lower_upper_char _ L). reflexivity.
Qed.

Lemma coerce_bool_true text :
  coerce_bool text = true <-> In (Str.lower text) ["1"; "true"; "yes"].
Proof.
  unfold coerce_bool. rewrite !orb_true_iff, !String.eqb_eq. simpl.
  intuition congruence.
Qed.

Lemma coerce_bool_texts text :
  coerce_bool text = true <-> In text debug_on_texts.
Proof.
  rewrite coerce_bool_true. unfold debug_on_texts.
  rewrite !in_app_iff, <- !lower_case_variants by reflexivity.
  simpl. intuition congruence.
Qed.

End Lowercase.

(** C5.  [DEBUG] is true exactly when the lowercased text of
    [EMOTIV_DEBUG] is one of ["1"], ["true"], ["yes"], that is, when the
    text is one of these three written in any mix of small and capital
    letters.  Every other text gives false: in particular ["TRUE"],
    ["Yes"] and ["1"] give true, and ["false"], the empty text, ["no"] and
    ["random"] give false. *)
Theorem debug_coercion
    (pf : Platform) (environ : gmap string string) (cfg : Settings) :
  load_settings pf environ = inr cfg ->
  let text := getenv environ "EMOTIV_DEBUG" "false" in
  (DEBUG cfg = true <-> In (Str.lower text) ["1"; "true"; "yes"])
  /\ (DEBUG cfg = true <-> In text debug_on_texts)
  /\ (coerce_bool "TRUE" = true /\ coerce_bool "Yes" = true
      /\ coerce_bool "1" = true)
  /\ (coerce_bool "false" = false /\ coerce_bool "" = false
      /\ coerce_bool "no" = false /\ coerce_bool "random" = false).
Proof.
  intros H text. apply load_settings_inr in H as (debit & _ & ->). simpl.
  fold text. split; [apply coerce_bool_true|].
  split; [apply coerce_bool_texts|]. repeat split.
Qed.

Lemma debug_coercion_witness :
  let environ := <["EMOTIV_DEBUG" := "Yes"]> Sample.credentials in
  exists cfg,
    load_settings Sample.machine environ = inr cfg
    /\ (DEBUG cfg = true
        <-> In (Str.lower (getenv environ "EMOTIV_DEBUG" "false"))
               ["1"; "true"; "yes"])
    /\ DEBUG cfg = true.
Proof.
  eexists. split; [vm_compute; reflexivity|].
  split; [|reflexivity].
  apply (debug_coercion Sample.machine
           (<["EMOTIV_DEBUG" := "Yes"]> Sample.credentials)).
  vm_compute; reflexivity.
Defined.

(** ** Integer coercion *)

Section IntegerCoercion.

Import Numeric.

Lemma string_app_assoc (a b c : string) : (a ++ b) ++ c = a ++ (b ++ c).
Proof.
  induction a as [|x a IH]; [reflexivity|].
  change (String x ((a ++ b) ++ c) = String x (a ++ (b ++ c))).
  rewrite IH. reflexivity.
Qed.

Lemma is_digit_value c :
  is_digit c = match PyInt.digit_value c with Some _ => true | None => false end.
Proof.
  unfold is_digit, PyInt.digit_value.
  destruct (_ && _); reflexivity.
Qed.

(** The blanks of a numeric text are the whitespace of [int()]. *)
Lemma is_blank_space c : is_blank c = PyInt.is_space c.
Proof. destruct c as [[] [] [] [] [] [] [] []]; reflexivity. Qed.

Lemma drop_blanks_lstrip s : drop_blanks s = PyInt.lstrip s.
Proof.
  induction s as [|c s IH]; [reflexivity|]. cbn [drop_blanks PyInt.lstrip].
  rewrite is_blank_space, IH. reflexivity.
Qed.

Lemma digit_not_space c : is_digit c = true -> PyInt.is_space c = false.
Proof.
  destruct c as [[] [] [] [] [] [] [] []]; intros H;
    first [discriminate H | reflexivity].
Qed.

Lemma digit_not_underscore c : is_digit c = true -> Ascii.eqb c "_" = false.
Proof.
  destruct c as [[] [] [] [] [] [] [] []]; intros H;
    first [discriminate H | reflexivity].
Qed.

Lemma digit_not_sign c :
  is_digit c = true -> Ascii.eqb c "+" = false /\ Ascii.eqb c "-" = false.
Proof.
  destruct c as [[] [] [] [] [] [] [] []]; intros H;
    first [discriminate H | split; reflexivity].
Qed.



(** What the scanner of [int()] consumes is a run of digit groups. *)
Lemma digits_sound s :
  forall acc prev v tail,
    PyInt.digits acc prev s = Some (v, tail) ->
    exists body,
      s = body ++ tail
      /\ forall d, is_digit d = true ->
           digit_groups (if prev then String d body else body) = true.
Proof.
  induction s as [|c s IH]; intros acc prev v tail; simpl.
  - destruct prev; [|discriminate]. intros [= <- <-].
    exists "". split; [reflexivity|]. intros d Hd. simpl. rewrite Hd. reflexivity.
  - pose proof (is_digit_value c) as Dc.
    destruct (PyInt.digit_value c) as [dv|].
    + intros H. apply IH in H as (body & -> & G).
      exists (String c body). split; [reflexivity|]. intros d Hd.
      destruct prev; [|apply G, Dc].
      cbn [digit_groups]. rewrite Hd, (digit_not_underscore _ Dc).
      apply G, Dc.
    + destruct (Ascii.eqb c "_") eqn:U.
      * destruct prev; [|discriminate]. intros H.
        apply IH in H as (body & -> & G).
        exists (String c body). split; [reflexivity|]. intros d Hd.
        cbn [digit_groups]. rewrite Hd, U. apply (G d Hd).
      * destruct prev; [|discriminate]. intros [= <- <-].
        exists "". split; [reflexivity|]. intros d Hd.
        simpl. rewrite Hd. reflexivity.
Qed.

Lemma rstrip_all_space t : PyInt.all_space t = true -> rstrip t = "".
Proof.
  induction t as [|c t IH]; [reflexivity|]. cbn [PyInt.all_space rstrip].
  intros H. apply andb_prop in H as [Hc Ht].
  rewrite (IH Ht), is_blank_space, Hc. reflexivity.
Qed.

Lemma rstrip_cons c s :
  PyInt.is_space c = false -> rstrip (String c s) = String c (rstrip s).
Proof. intros H. cbn [rstrip]. rewrite is_blank_space, H. reflexivity. Qed.

(** Trailing whitespace after digit groups is all that [rstrip] removes. *)
Lemma groups_rstrip_bounded n :
  forall b t,
    (String.length b <= n)%nat ->
    digit_groups b = true -> PyInt.all_space t = true -> rstrip (b ++ t) = b.
Proof.
  induction n as [|n IH]; intros b t Hn G T.
  - destruct b; [discriminate G|]. simpl in Hn. lia.
  - destruct b as [|c rest]; [discriminate G|].
    cbn [digit_groups] in G. apply andb_prop in G as [Dc G].
    change (String c rest ++ t) with (String c (rest ++ t)).
    rewrite (rstrip_cons _ _ (digit_not_space _ Dc)). f_equal.
    destruct rest as [|c' rest'].
    + apply rstrip_all_space, T.
    + simpl in Hn. destruct (Ascii.eqb c' "_") eqn:U.
      * apply Ascii.eqb_eq in U. subst c'.
        change (String "_" rest' ++ t) with (String "_" (rest' ++ t)).
        rewrite rstrip_cons by reflexivity. f_equal.
        apply IH; auto. lia.
      * apply IH; auto. simpl. lia.
Qed.

Lemma groups_rstrip b t :
  digit_groups b = true -> PyInt.all_space t = true -> rstrip (b ++ t) = b.
Proof. apply (groups_rstrip_bounded (String.length b)). lia. Qed.

Lemma groups_unsigned b : digit_groups b = true -> unsigned b = b.
Proof.
  destruct b as [|c rest]; [reflexivity|]. cbn [digit_groups unsigned].
  intros G. apply andb_prop in G as [Dc _].
  destruct (digit_not_sign _ Dc) as [-> ->]. reflexivity.
Qed.



(** What [int()] does once the text is past its sign: the three ways it
    can go. *)
Lemma scan_inv text sign z :
  match PyInt.digits 0 false text with
  | Some (v, tail) =>
      if PyInt.all_space tail
         && (PyInt.count_digits text <=? PyInt.max_str_digits)%N
      then Some (sign * v)%Z else None
  | None => None
  end = Some z ->
  exists body tail,
    text = body ++ tail /\ digit_groups body = true
    /\ PyInt.all_space tail = true
    /\ (PyInt.count_digits text <= PyInt.max_str_digits)%N.
Proof.
  intros H.
  destruct (PyInt.digits 0 false text) as [[v tail]|] eqn:D; [|discriminate].
  destruct (PyInt.all_space tail) eqn:T; [|discriminate].
  destruct (PyInt.count_digits text <=? PyInt.max_str_digits)%N eqn:C;
    [|discriminate].
  apply N.leb_le in C.
  apply digits_sound in D as (body & -> & G).
  exists body, tail. repeat split; auto. apply (G "0"%char). reflexivity.
Qed.

(** Every text that [int()] accepts is numeric. *)
Lemma parse_numeric s z : PyInt.parse s = Some z -> numeric_text s = true.
Proof.
  unfold PyInt.parse, numeric_text. rewrite drop_blanks_lstrip.
  destruct (PyInt.lstrip s) as [|c r] eqn:L; [discriminate|].
  assert (Signed : forall sign,
    (Ascii.eqb c "+" || Ascii.eqb c "-" = true) ->
    match PyInt.digits 0 false r with
    | Some (v, tail) =>
        if PyInt.all_space tail
           && (PyInt.count_digits r <=? PyInt.max_str_digits)%N
        then Some (sign * v)%Z else None
    | None => None
    end = Some z ->
    digit_groups (unsigned (rstrip (String c r))) = true).
  { intros sign Hc H. apply scan_inv in H as (body & tail & -> & G & T & _).
    rewrite rstrip_cons.
    - cbn [unsigned]. rewrite Hc, (groups_rstrip _ _ G T). exact G.
    - apply orb_prop in Hc as [E|E]; apply Ascii.eqb_eq in E; subst c;
        reflexivity. }
  destruct (Ascii.eqb c "+") eqn:P; [apply Signed; reflexivity|].
  destruct (Ascii.eqb c "-") eqn:M; [apply Signed; reflexivity|].
  intros H. apply scan_inv in H as (body & tail & E & G & T & _).
  rewrite E, (groups_rstrip _ _ G T), (groups_unsigned _ G). exact G.
Qed.







(** A text that is not numeric makes [int()] raise. *)
Lemma coerce_int_not_numeric text :
  numeric_text text = false -> coerce_int text = inl (ValueError text).
Proof.
  intros N. unfold coerce_int.
  destruct (PyInt.parse text) as [z|] eqn:P; [|reflexivity].
  apply parse_numeric in P. congruence.
Qed.

End IntegerCoercion.

(** C6.  Without [EMOTIV_DEBIT] the debit is 10, and with the text
    ["25"] it is 25.  A text that is not numeric makes the coercion raise
    while the module is being imported; nothing catches the exception (in
    Python, the [ValueError] of [int()]), so the import itself fails with
    it. *)
Theorem debit_coercion (pf : Platform) (environ : gmap string string) :
  let merged := initialize pf environ in
  (merged !! "EMOTIV_DEBIT" = None ->
   exists cfg, import_config pf environ = inr cfg /\ DEBIT cfg = 10%Z)
  /\ (merged !! "EMOTIV_DEBIT" = Some "25" ->
      exists cfg, import_config pf environ = inr cfg /\ DEBIT cfg = 25%Z)
  /\ (forall text,
        merged !! "EMOTIV_DEBIT" = Some text ->
        Numeric.numeric_text text = false ->
        import_config pf environ = inl (ValueError text)).
Proof.
  intros merged. unfold import_config. fold merged. unfold load_settings.
  repeat split.
  - intros H. rewrite (getenv_absent _ _ _ H). eexists. split; reflexivity.
  - intros H. rewrite (getenv_present _ _ _ _ H). eexists. split; reflexivity.
  - intros text H N. rewrite (getenv_present _ _ _ _ H).
    rewrite (coerce_int_not_numeric _ N). reflexivity.
Qed.

Lemma debit_coercion_witness :
  (exists cfg, import_config Sample.machine Sample.credentials = inr cfg
               /\ DEBIT cfg = 10%Z)
  /\ (exists cfg,
        import_config Sample.machine (<["EMOTIV_DEBIT" := "25"]> Sample.credentials)
        = inr cfg /\ DEBIT cfg = 25%Z)
  /\ Numeric.numeric_text "ten" = false
  /\ import_config Sample.machine (<["EMOTIV_DEBIT" := "ten"]> Sample.credentials)
     = inl (ValueError "ten").
Proof.
  split; [|split; [|split]].
  - apply (debit_coercion Sample.machine Sample.credentials). reflexivity.
  - apply (debit_coercion Sample.machine
             (<["EMOTIV_DEBIT" := "25"]> Sample.credentials)). reflexivity.
  - reflexivity.
  - apply (debit_coercion Sample.machine
             (<["EMOTIV_DEBIT" := "ten"]> Sample.credentials)); reflexivity.
Defined.

(** C3, as stated, fails: an [EMOTIV_EXPORT_FOLDER] set to the empty text
    gives the empty text, not the folder under the home directory, and an
    [EMOTIV_DEBIT] set to the empty text gives no debit at all. *)
Lemma empty_variable_is_not_defaulted :
  (exists cfg,
     import_config Sample.machine
       (<["EMOTIV_EXPORT_FOLDER" := ""]> Sample.credentials) = inr cfg
     /\ EXPORT_FOLDER cfg = ""
     /\ default_export_folder Sample.machine = "/home/user/cortex_exports")
  /\ import_config Sample.machine (<["EMOTIV_DEBIT" := ""]> Sample.credentials)
     = inl (ValueError "").
Proof.
  split; [eexists; split; [vm_compute; reflexivity|split; reflexivity]|].
  vm_compute; reflexivity.
Qed.

(** C3, amended.  A setting whose variable is absent takes its default:
    the debit is 10, debug is false, the export folder is the home
    directory joined with [cortex_exports], and the four texts are empty.
    A variable set to the empty text is read as that text: the texts are
    empty and debug is false, as by default, but the export folder is the
    empty text and the coercion of the debit raises. *)
Theorem settings_defaults (pf : Platform) (environ : gmap string string) :
  let merged := initialize pf environ in
  let absent key := merged !! key = None in
  let empty key := merged !! key = Some "" in
  (absent "EMOTIV_DEBIT" ->
   exists cfg, import_config pf environ = inr cfg /\ DEBIT cfg = 10%Z)
  /\ (empty "EMOTIV_DEBIT" -> import_config pf environ = inl (ValueError ""))
  /\ forall cfg,
      import_config pf environ = inr cfg ->
      (absent "EMOTIV_DEBUG" \/ empty "EMOTIV_DEBUG" -> DEBUG cfg = false)
      /\ (absent "EMOTIV_EXPORT_FOLDER" ->
          EXPORT_FOLDER cfg
          = PurePath.to_string
              (mkPath (absolute (home pf)) (parts (home pf) ++ ["cortex_exports"])))
      /\ (empty "EMOTIV_EXPORT_FOLDER" -> EXPORT_FOLDER cfg = "")
      /\ (absent "EMOTIV_CLIENT_ID" \/ empty "EMOTIV_CLIENT_ID" ->
          CLIENT_ID cfg = "")
      /\ (absent "EMOTIV_CLIENT_SECRET" \/ empty "EMOTIV_CLIENT_SECRET" ->
          CLIENT_SECRET cfg = "")
      /\ (absent "EMOTIV_HEADSET_ID" \/ empty "EMOTIV_HEADSET_ID" ->
          HEADSET_ID cfg = "")
      /\ (absent "EMOTIV_LICENSE" \/ empty "EMOTIV_LICENSE" -> LICENSE cfg = "").
Proof.
  intros merged absent empty. unfold import_config. fold merged.
  split; [|split].
  - intros H. unfold load_settings. rewrite (getenv_absent _ _ _ H).
    eexists. split; reflexivity.
  - intros H. unfold load_settings. rewrite (getenv_present _ _ _ _ H).
    reflexivity.
  - intros cfg H. apply load_settings_inr in H as (debit & _ & ->).
    cbn [DEBUG EXPORT_FOLDER CLIENT_ID CLIENT_SECRET HEADSET_ID LICENSE].
    repeat split;
      try (intros [H|H];
           [rewrite (getenv_absent _ _ _ H)
           |rewrite (getenv_present _ _ _ _ H)]; reflexivity).
    + intros H. rewrite (getenv_absent _ _ _ H). reflexivity.
    + intros H. rewrite (getenv_present _ _ _ _ H). reflexivity.
Qed.

Lemma settings_defaults_witness :
  initialize Sample.machine Sample.credentials !! "EMOTIV_DEBIT" = None
  /\ exists cfg, import_config Sample.machine Sample.credentials = inr cfg
                 /\ DEBIT cfg = 10%Z.
Proof.
  split; [reflexivity|].
  apply (settings_defaults Sample.machine Sample.credentials). reflexivity.
Defined.

(** ** The self-test *)

Example report_on_workstation :
  main (Sample.settings "app-id" "app-secret" "exports") Sample.workstation
  = (mkFS (<[ ["exports"; "user"; "home"] := Dir ]> (nodes Sample.workstation))
          (readonly Sample.workstation) (cwd Sample.workstation),
     "=== Emotiv Cortex Configuration ===
  CLIENT_ID        : app-id
  CLIENT_SECRET    : **********
  HEADSET_ID       : (auto-detect)
  LICENSE          : (none)
  DEBIT            : 10
  DEBUG            : False
  EXPORT_FOLDER    : exports

✔  Configuration looks good!
",
     None).
Proof. vm_compute. reflexivity. Qed.

Section Report.

Implicit Types (cfg : Settings) (fs : filesystem).

Lemma masked_length secret :
  secret <> "" -> masked secret = Str.repeat "*" (String.length secret).
Proof.
  intros H. unfold masked.
  destruct (String.eqb_spec secret ""); [contradiction|reflexivity].
Qed.

Lemma repeat_length c n : String.length (Str.repeat c n) = n.
Proof. induction n as [|n IH]; simpl; [reflexivity|]. rewrite IH. reflexivity. Qed.

(** The mask tells the length of the secret and nothing else. *)
Lemma masked_same_length secret secret' :
  secret <> "" -> secret' <> "" ->
  String.length secret' = String.length secret ->
  masked secret' = masked secret.
Proof.
  intros H H' L. rewrite !masked_length by assumption. rewrite L. reflexivity.
Qed.

Lemma validate_with_secret cfg fs secret' :
  CLIENT_SECRET cfg <> "" -> secret' <> "" ->
  validate (with_secret cfg secret') fs = validate cfg fs.
Proof.
  intros H H'. unfold validate, missing_fields. cbn [with_secret CLIENT_ID
    CLIENT_SECRET EXPORT_FOLDER].
  destruct (String.eqb_spec (CLIENT_SECRET cfg) ""); [contradiction|].
  destruct (String.eqb_spec secret' ""); [contradiction|]. reflexivity.
Qed.

Lemma print_app a b s : print (a ++ b) s = a ++ print b s.
Proof. unfold print. apply string_app_assoc. Qed.

Lemma string_app_empty a : a ++ "" = a.
Proof.
  induction a as [|x a IH]; [reflexivity|].
  change (String x (a ++ "") = String x a). rewrite IH. reflexivity.
Qed.

Lemma report_header_split cfg :
  report_header cfg =
  report_before cfg
  ++ ("  CLIENT_SECRET    : " ++ masked (CLIENT_SECRET cfg) ++ NL)
  ++ report_after cfg.
Proof.
  unfold report_header, report_after, report_rows. cbn [fold_left skipn].
  fold (report_before cfg).
  rewrite <- !print_app, string_app_empty. reflexivity.
Qed.

End Report.

(** C8, as stated, fails: the secret is set, and the report contains it,
    in its heading. *)
Lemma report_can_contain_secret :
  let cfg := Sample.settings "app-id" "Emotiv" "/home/user/cortex_exports/run1" in
  CLIENT_SECRET cfg <> ""
  /\ Str.contains (CLIENT_SECRET cfg) (main cfg Sample.workstation).1.2 = true.
Proof. split; [discriminate|vm_compute; reflexivity]. Qed.

(** C8, amended.  When the client secret is set, the report shows on
    its line a run of asterisks as long as the secret, and the secret
    enters the report in no other way: a second secret of the same length
    gives the same output, the same filesystem and the same outcome.  The
    text of the secret is therefore in the output only where the other
    settings, the fixed text of the report or the asterisks put it. *)
Theorem report_masks_secret (cfg : Settings) (fs : filesystem) (secret' : string) :
  CLIENT_SECRET cfg <> "" -> secret' <> "" ->
  String.length secret' = String.length (CLIENT_SECRET cfg) ->
  (exists before after,
     (main cfg fs).1.2 =
     before ++ "  CLIENT_SECRET    : " ++ masked (CLIENT_SECRET cfg) ++ NL ++ after)
  /\ masked (CLIENT_SECRET cfg) = Str.repeat "*" (String.length (CLIENT_SECRET cfg))
  /\ String.length (masked (CLIENT_SECRET cfg)) = String.length (CLIENT_SECRET cfg)
  /\ main (with_secret cfg secret') fs = main cfg fs.
Proof.
  intros H H' L. split; [|split; [|split]].
  - exists (report_before cfg). unfold main.
    rewrite report_header_split.
    destruct (validate cfg fs) as [fs' [[msg|lit|code]|u]]; cbn [fst snd];
      eexists; unfold print; rewrite ?string_app_assoc; reflexivity.
  - apply masked_length, H.
  - rewrite (masked_length _ H). apply repeat_length.
  - unfold main. rewrite (validate_with_secret _ _ _ H H').
    rewrite !report_header_split. cbn [with_secret CLIENT_SECRET].
    rewrite (masked_same_length _ _ H H' L). reflexivity.
Qed.

Lemma report_masks_secret_witness :
  let cfg := Sample.settings "app-id" "app-secret" "/home/user/cortex_exports/run1" in
  CLIENT_SECRET cfg <> "" /\ "0123456789" <> ""
  /\ String.length "0123456789" = String.length (CLIENT_SECRET cfg)
  /\ main (with_secret cfg "0123456789") Sample.workstation
     = main cfg Sample.workstation.
Proof.
  split; [discriminate|]. split; [discriminate|]. split; [reflexivity|].
  apply (report_masks_secret
           (Sample.settings "app-id" "app-secret" "/home/user/cortex_exports/run1")
           Sample.workstation "0123456789");
    [discriminate|discriminate|reflexivity].
Defined.

(** * Further properties of the module *)

(** ** Importing *)


(** ** What [validate] does to the filesystem *)

Lemma is_dir_parent (fs : filesystem) (abs : bool) (name : string)
    (rparent : list string) :
  OS.is_dir fs abs (name :: rparent) = true -> OS.is_dir fs abs rparent = true.
Proof.
  unfold OS.is_dir. simpl rev. rewrite lookup_dir_app.
  destruct (OS.lookup_dir fs _ (rev rparent)); [discriminate|reflexivity].
Qed.

Lemma is_dir_ancestors (fs : filesystem) (abs : bool) (rparts rp : list string) :
  OS.is_dir fs abs rparts = true -> rp `suffix_of` rparts ->
  OS.is_dir fs abs rp = true.
Proof.
  intros D [k ->]. induction k as [|name k IH]; [exact D|].
  apply IH. eapply is_dir_parent, D.
Qed.

Lemma validate_returns_present (cfg : Settings) (fs fs' : filesystem) (u : unit) :
  validate cfg fs = (fs', inr u) -> CLIENT_ID cfg <> "" /\ CLIENT_SECRET cfg <> "".
Proof.
  intros V. apply missing_fields_nil. unfold validate in V.
  destruct (missing_fields cfg); [reflexivity|discriminate].
Qed.

(** Whenever [validate] returns normally, on any filesystem, both
    credentials were present, the export folder and every ancestor on its
    path are directories, and every entry that was there before is still
    there, unchanged. *)
Theorem validate_return_postcondition
    (cfg : Settings) (fs fs' : filesystem) :
  validate cfg fs = (fs', inr tt) ->
  let p := PurePath.of_string (EXPORT_FOLDER cfg) in
  CLIENT_ID cfg <> "" /\ CLIENT_SECRET cfg <> ""
  /\ (forall rp, rp `suffix_of` rev (parts p) -> OS.is_dir fs' (absolute p) rp = true)
  /\ extends fs fs'.
Proof.
  intros V p. destruct (validate_returns _ _ _ V) as [D E].
  destruct (validate_returns_present _ _ _ _ V) as [Hi Hs].
  split; [exact Hi|]. split; [exact Hs|]. split; [|exact E].
  intros rp S. eapply is_dir_ancestors; [exact D|exact S].
Qed.

Lemma validate_return_postcondition_witness :
  let cfg := Sample.settings "app-id" "app-secret" "records/run1" in
  let fs' := (validate cfg Sample.workstation).1 in
  validate cfg Sample.workstation = (fs', inr tt)
  /\ OS.is_dir fs' false ["records"] = true
  /\ extends Sample.workstation fs'.
Proof.
  assert (V : validate (Sample.settings "app-id" "app-secret" "records/run1")
                Sample.workstation
              = ((validate (Sample.settings "app-id" "app-secret" "records/run1")
                    Sample.workstation).1, inr tt)) by (vm_compute; reflexivity).
  split; [exact V|].
  destruct (validate_return_postcondition _ _ _ V) as (_ & _ & A & E).
  split; [|exact E]. apply A. exists ["run1"]. reflexivity.
Defined.

(** Whatever its outcome, [validate] removes nothing and replaces nothing:
    every entry of the filesystem is kept with its kind, anything new is a
    directory, and the protection of directories and the working
    directory are as before. *)
Theorem validate_never_removes (cfg : Settings) (fs : filesystem) :
  extends fs (validate cfg fs).1.
Proof.
  unfold validate. destruct (missing_fields cfg); [|apply extends_refl].
  unfold Path_mkdir.
  destruct (mkdir_parents fs _ _) as [fs' [e|u]] eqn:M; simpl;
    eapply mkdir_parents_extends, M.
Qed.

(** An export folder that is a directory already makes [validate] return
    normally without touching the filesystem, whatever else the
    filesystem holds or protects. *)
Theorem existing_export_folder_is_kept (cfg : Settings) (fs : filesystem) :
  CLIENT_ID cfg <> "" -> CLIENT_SECRET cfg <> "" ->
  Path_is_dir fs (PurePath.of_string (EXPORT_FOLDER cfg)) = true ->
  validate cfg fs = (fs, inr tt).
Proof.
  intros Hi Hs D. rewrite (validate_present _ _ Hi Hs).
  unfold Path_mkdir. rewrite (mkdir_parents_existing _ _ _ D). reflexivity.
Qed.

Lemma existing_export_folder_is_kept_witness :
  let cfg := Sample.settings "app-id" "app-secret" "/home/user/" in
  CLIENT_ID cfg <> "" /\ CLIENT_SECRET cfg <> ""
  /\ Path_is_dir Sample.workstation (PurePath.of_string (EXPORT_FOLDER cfg)) = true
  /\ validate cfg Sample.workstation = (Sample.workstation, inr tt).
Proof.
  split; [discriminate|]. split; [discriminate|]. split; [reflexivity|].
  apply (existing_export_folder_is_kept
           (Sample.settings "app-id" "app-secret" "/home/user/")
           Sample.workstation); [discriminate|discriminate|reflexivity].
Defined.

(** *** The ways the directory creation fails *)

Lemma is_file_lookup (fs : filesystem) (abs : bool) (rparts : list string) :
  is_file fs abs rparts = true ->
  OS.lookup_dir fs (OS.start fs abs) (rev rparts) = inl ENOTDIR.
Proof.
  unfold is_file. destruct rparts as [|name rp]; [discriminate|].
  destruct (OS.lookup_dir fs _ (rev rp)) as [e|d] eqn:L; [discriminate|].
  destruct (OS.kind fs (OS.step d name)) as [[|]|] eqn:K; try discriminate.
  intros _. simpl rev. rewrite lookup_dir_app, L. simpl.
  rewrite (lookup_dir_kind _ _ _ _ L), K. reflexivity.
Qed.

Lemma mkdir_parents_on_file (fs : filesystem) (abs : bool) (rparts : list string) :
  is_file fs abs rparts = true ->
  mkdir_parents fs abs rparts = (fs, inl EEXIST).
Proof.
  intros F. pose proof (is_file_lookup _ _ _ F) as L.
  assert (D : OS.is_dir fs abs rparts = false)
    by (unfold OS.is_dir; rewrite L; reflexivity).
  assert (M : OS.mkdir fs abs rparts = inl EEXIST).
  { unfold is_file in F. unfold OS.mkdir.
    destruct rparts as [|name rp]; [discriminate|].
    destruct (OS.lookup_dir fs _ (rev rp)) as [e|d]; [discriminate|].
    unfold OS.step in F. destruct (String.eqb name ".."); [reflexivity|].
    destruct (OS.kind fs (name :: d)) as [[|]|]; try discriminate. reflexivity. }
  rewrite mkdir_parents_unfold, M. unfold mkdir_exist_ok. rewrite M, D.
  reflexivity.
Qed.

Lemma mkdir_parents_below_file (fs : filesystem) (abs : bool)
    (name : string) (below ancestor : list string) :
  is_file fs abs ancestor = true ->
  mkdir_parents fs abs (name :: below ++ ancestor) = (fs, inl ENOTDIR).
Proof.
  intros F. pose proof (is_file_lookup _ _ _ F) as L.
  assert (L' : forall extra,
    OS.lookup_dir fs (OS.start fs abs) (rev (extra ++ ancestor)) = inl ENOTDIR).
  { intros extra. rewrite rev_app_distr, lookup_dir_app, L. reflexivity. }
  assert (D : OS.is_dir fs abs (name :: below ++ ancestor) = false).
  { unfold OS.is_dir.
    change (name :: below ++ ancestor)%list with ((name :: below) ++ ancestor)%list.
    rewrite (L' (name :: below)). reflexivity. }
  assert (M : OS.mkdir fs abs (name :: below ++ ancestor) = inl ENOTDIR).
  { unfold OS.mkdir. rewrite (L' below). reflexivity. }
  rewrite mkdir_parents_unfold, M. unfold mkdir_exist_ok. rewrite M, D.
  reflexivity.
Qed.

(** With both credentials present, an export folder that names a regular
    file makes [validate] raise [FileExistsError]; the filesystem is left
    as it was. *)
Theorem export_folder_is_a_file (cfg : Settings) (fs : filesystem) :
  CLIENT_ID cfg <> "" -> CLIENT_SECRET cfg <> "" ->
  Path_is_file fs (PurePath.of_string (EXPORT_FOLDER cfg)) = true ->
  validate cfg fs = (fs, inl (OSError EEXIST)).
Proof.
  intros Hi Hs F. rewrite (validate_present _ _ Hi Hs).
  unfold Path_mkdir. rewrite (mkdir_parents_on_file _ _ _ F). reflexivity.
Qed.

Lemma export_folder_is_a_file_witness :
  let cfg := Sample.settings "app-id" "app-secret" "notes.txt" in
  CLIENT_ID cfg <> "" /\ CLIENT_SECRET cfg <> ""
  /\ Path_is_file Sample.workstation (PurePath.of_string (EXPORT_FOLDER cfg)) = true
  /\ validate cfg Sample.workstation = (Sample.workstation, inl (OSError EEXIST)).
Proof.
  split; [discriminate|]. split; [discriminate|]. split; [reflexivity|].
  apply (export_folder_is_a_file
           (Sample.settings "app-id" "app-secret" "notes.txt")
           Sample.workstation); [discriminate|discriminate|reflexivity].
Defined.

(** With both credentials present, an export folder below a regular file
    makes [validate] raise [NotADirectoryError]; the filesystem is left as
    it was. *)
Theorem export_folder_below_a_file
    (cfg : Settings) (fs : filesystem) (above below : list string) :
  CLIENT_ID cfg <> "" -> CLIENT_SECRET cfg <> "" ->
  let p := PurePath.of_string (EXPORT_FOLDER cfg) in
  parts p = (above ++ below)%list -> below <> [] ->
  Path_is_file fs (mkPath (absolute p) above) = true ->
  validate cfg fs = (fs, inl (OSError ENOTDIR)).
Proof.
  intros Hi Hs p P B F. rewrite (validate_present _ _ Hi Hs).
  unfold Path_mkdir. fold p. rewrite P, rev_app_distr.
  destruct (rev below) as [|name rbelow] eqn:R.
  - apply (f_equal (@rev string)) in R. rewrite rev_involutive in R.
    contradiction.
  - change ((name :: rbelow) ++ rev above)%list
      with (name :: (rbelow ++ rev above))%list.
    unfold Path_is_file in F. cbn [absolute parts] in F.
    rewrite (mkdir_parents_below_file _ _ _ _ _ F). reflexivity.
Qed.

Lemma export_folder_below_a_file_witness :
  let cfg := Sample.settings "app-id" "app-secret" "/home/user/notes.txt/run1" in
  let p := PurePath.of_string (EXPORT_FOLDER cfg) in
  CLIENT_ID cfg <> "" /\ CLIENT_SECRET cfg <> ""
  /\ parts p = (["home"; "user"; "notes.txt"] ++ ["run1"])%list
  /\ Path_is_file Sample.workstation
       (mkPath (absolute p) ["home"; "user"; "notes.txt"]) = true
  /\ validate cfg Sample.workstation = (Sample.workstation, inl (OSError ENOTDIR)).
Proof.
  split; [discriminate|]. split; [discriminate|]. split; [reflexivity|].
  split; [reflexivity|].
  apply (export_folder_below_a_file
           (Sample.settings "app-id" "app-secret" "/home/user/notes.txt/run1")
           Sample.workstation ["home"; "user"; "notes.txt"] ["run1"]);
    [discriminate|discriminate|reflexivity|discriminate|reflexivity].
Defined.

(** With both credentials present, an export folder that is absent from
    an existing directory which refuses new entries makes [validate]
    raise [PermissionError]; the filesystem is left as it was. *)
Theorem export_folder_in_protected_directory
    (cfg : Settings) (fs : filesystem) (name : string)
    (rparent d : list string) :
  CLIENT_ID cfg <> "" -> CLIENT_SECRET cfg <> "" ->
  let p := PurePath.of_string (EXPORT_FOLDER cfg) in
  rev (parts p) = name :: rparent ->
  name <> ".." ->
  OS.lookup_dir fs (OS.start fs (absolute p)) (rev rparent) = inr d ->
  OS.kind fs (name :: d) = None ->
  d ∈ readonly fs ->
  validate cfg fs = (fs, inl (OSError EACCES)).
Proof.
  intros Hi Hs p P N L K R. rewrite (validate_present _ _ Hi Hs).
  unfold Path_mkdir. fold p. rewrite P.
  apply String.eqb_neq in N.
  assert (M : OS.mkdir fs (absolute p) (name :: rparent) = inl EACCES).
  { unfold OS.mkdir. rewrite L, N, K.
    destruct (decide (d ∈ readonly fs)); [reflexivity|contradiction]. }
  assert (D : OS.is_dir fs (absolute p) (name :: rparent) = false).
  { unfold OS.is_dir. simpl rev. rewrite (lookup_dir_snoc _ _ _ _ _ L N), K.
    reflexivity. }
  rewrite mkdir_parents_unfold, M. unfold mkdir_exist_ok. rewrite M, D.
  reflexivity.
Qed.

Lemma export_folder_in_protected_directory_witness :
  let cfg := Sample.settings "app-id" "app-secret" "/home/guest" in
  let p := PurePath.of_string (EXPORT_FOLDER cfg) in
  CLIENT_ID cfg <> "" /\ CLIENT_SECRET cfg <> ""
  /\ rev (parts p) = ["guest"; "home"]
  /\ OS.lookup_dir Sample.workstation (OS.start Sample.workstation (absolute p))
       (rev ["home"]) = inr ["home"]
  /\ OS.kind Sample.workstation ["guest"; "home"] = None
  /\ ["home"] ∈ readonly Sample.workstation
  /\ validate cfg Sample.workstation = (Sample.workstation, inl (OSError EACCES)).
Proof.
  assert (R : ["home"] ∈ readonly Sample.workstation)
    by (unfold Sample.workstation; simpl; set_solver).
  split; [discriminate|]. split; [discriminate|]. split; [reflexivity|].
  split; [reflexivity|]. split; [reflexivity|]. split; [exact R|].
  apply (export_folder_in_protected_directory
           (Sample.settings "app-id" "app-secret" "/home/guest")
           Sample.workstation "guest" ["home"] ["home"]);
    [discriminate|discriminate|reflexivity|discriminate|reflexivity
    |reflexivity|exact R].
Defined.

(** ** Paths as texts *)

Section PathText.

Lemma split_go_trailing (acc s : string) :
  Str.split_go "/" acc (s ++ "/") = (Str.split_go "/" acc s ++ [""])%list.
Proof.
  revert acc. induction s as [|c s IH]; intros acc; [reflexivity|].
  change (String c s ++ "/") with (String c (s ++ "/")).
  cbn [Str.split_go]. destruct (Ascii.eqb c "/").
  - rewrite IH. reflexivity.
  - apply IH.
Qed.

Lemma of_string_trailing_slash (s : string) :
  s <> "" -> PurePath.of_string (s ++ "/") = PurePath.of_string s.
Proof.
  intros H. unfold PurePath.of_string, Str.split. f_equal.
  - destruct s as [|c s]; [contradiction|]. reflexivity.
  - rewrite split_go_trailing, List.filter_app. simpl. apply app_nil_r.
Qed.

(** A piece without a slash is read in one go. *)
Lemma split_go_piece (piece acc rest : string) :
  has_char "/" piece = false ->
  Str.split_go "/" acc (piece ++ String "/" rest)
  = (acc ++ piece) :: Str.split_go "/" "" rest.
Proof.
  revert acc. induction piece as [|c piece IH]; intros acc H.
  - simpl. rewrite string_app_empty. reflexivity.
  - cbn [has_char] in H. apply orb_false_elim in H as [C H].
    change (String c piece ++ String "/" rest)
      with (String c (piece ++ String "/" rest)).
    cbn [Str.split_go]. rewrite C, (IH _ H), string_app_assoc. reflexivity.
Qed.

Lemma split_go_last (piece acc : string) :
  has_char "/" piece = false -> Str.split_go "/" acc piece = [acc ++ piece].
Proof.
  revert acc. induction piece as [|c piece IH]; intros acc H.
  - simpl. rewrite string_app_empty. reflexivity.
  - cbn [has_char] in H. apply orb_false_elim in H as [C H].
    cbn [Str.split_go]. rewrite C, (IH _ H), string_app_assoc. reflexivity.
Qed.

Lemma split_join (name : string) (names : list string) :
  forallb component (name :: names) = true ->
  Str.split_go "/" "" (Str.join "/" (name :: names)) = name :: names.
Proof.
  revert name. induction names as [|next names IH]; intros name H;
    cbn [forallb] in H; apply andb_prop in H as [C H];
    unfold component in C; apply andb_prop in C as [_ C];
    apply negb_true_iff in C.
  - simpl. apply split_go_last, C.
  - change (Str.join "/" (name :: next :: names))
      with (name ++ String "/" (Str.join "/" (next :: names))).
    rewrite (split_go_piece _ _ _ C), (IH _ H). reflexivity.
Qed.

Lemma filter_components (names : list string) :
  forallb component names = true ->
  List.filter PurePath.keep_part names = names.
Proof.
  induction names as [|name names IH]; [reflexivity|]. cbn [forallb List.filter].
  intros H. apply andb_prop in H as [C H]. unfold component in C.
  apply andb_prop in C as [-> _]. rewrite (IH H). reflexivity.
Qed.

Lemma component_first_char (name rest : string) :
  component name = true -> Str.startswith "/" (name ++ rest) = false.
Proof.
  destruct name as [|c name]; [discriminate|]. unfold component.
  intros H. apply andb_prop in H as [_ H]. apply negb_true_iff in H.
  cbn [has_char] in H. apply orb_false_elim in H as [C _].
  change (String c name ++ rest) with (String c (name ++ rest)).
  cbn [Str.startswith]. rewrite Ascii.eqb_sym, C. reflexivity.
Qed.

Lemma join_cons (name : string) (names : list string) :
  exists rest, Str.join "/" (name :: names) = name ++ rest.
Proof.
  destruct names as [|next names].
  - exists "". simpl. rewrite string_app_empty. reflexivity.
  - eexists. reflexivity.
Qed.

(** [Path(str(p)) == p] for a path made of proper components. *)
Lemma of_string_to_string (p : Path) :
  forallb component (parts p) = true ->
  PurePath.of_string (PurePath.to_string p) = p.
Proof.
  destruct p as [abs names]. cbn [parts]. intros H.
  unfold PurePath.to_string, PurePath.of_string, Str.split. cbn [absolute parts].
  destruct names as [|name names]; [destruct abs; reflexivity|].
  pose proof (split_join _ _ H) as S.
  pose proof (filter_components _ H) as F.
  destruct (join_cons name names) as [rest J].
  cbn [forallb] in H. apply andb_prop in H as [C _].
  destruct abs.
  - change ("/" ++ Str.join "/" (name :: names))
      with (String "/" (Str.join "/" (name :: names))).
    change (Str.startswith "/" (String "/" (Str.join "/" (name :: names))))
      with true.
    change (Str.split_go "/" "" (String "/" (Str.join "/" (name :: names))))
      with ("" :: Str.split_go "/" "" (Str.join "/" (name :: names))).
    rewrite S.
    change (List.filter PurePath.keep_part ("" :: name :: names))
      with (List.filter PurePath.keep_part (name :: names)).
    rewrite F. reflexivity.
  - change ("" ++ Str.join "/" (name :: names))
      with (Str.join "/" (name :: names)).
    rewrite S, F, J, (component_first_char _ _ C). reflexivity.
Qed.

End PathText.

(** A slash at the end of a non-empty export folder changes nothing in
    what [validate] does. *)
Theorem trailing_slash_is_ignored (cfg cfg' : Settings) (fs : filesystem) :
  EXPORT_FOLDER cfg <> "" ->
  EXPORT_FOLDER cfg' = EXPORT_FOLDER cfg ++ "/" ->
  CLIENT_ID cfg' = CLIENT_ID cfg -> CLIENT_SECRET cfg' = CLIENT_SECRET cfg ->
  validate cfg' fs = validate cfg fs.
Proof.
  intros H E Hi Hs. unfold validate, missing_fields.
  rewrite Hi, Hs, E, (of_string_trailing_slash _ H). reflexivity.
Qed.

Lemma trailing_slash_is_ignored_witness :
  let cfg := Sample.settings "app-id" "app-secret" "records/run1" in
  let cfg' := Sample.settings "app-id" "app-secret" "records/run1/" in
  EXPORT_FOLDER cfg <> ""
  /\ EXPORT_FOLDER cfg' = EXPORT_FOLDER cfg ++ "/"
  /\ validate cfg' Sample.workstation = validate cfg Sample.workstation.
Proof.
  split; [discriminate|]. split; [reflexivity|].
  apply (trailing_slash_is_ignored
           (Sample.settings "app-id" "app-secret" "records/run1")
           (Sample.settings "app-id" "app-secret" "records/run1/")
           Sample.workstation); [discriminate|reflexivity..].
Defined.

(** Without [EMOTIV_EXPORT_FOLDER], the text stored as export folder
    reads back as the home directory joined with [cortex_exports]: that
    is the directory [validate] creates, provided the home directory is
    made of proper components. *)
Theorem default_export_folder_reads_back
    (pf : Platform) (environ : gmap string string) (cfg : Settings) :
  forallb component (parts (home pf)) = true ->
  initialize pf environ !! "EMOTIV_EXPORT_FOLDER" = None ->
  import_config pf environ = inr cfg ->
  PurePath.of_string (EXPORT_FOLDER cfg)
  = mkPath (absolute (home pf)) (parts (home pf) ++ ["cortex_exports"]).
Proof.
  intros W A I. apply load_settings_inr in I as (debit & _ & ->).
  cbn [EXPORT_FOLDER]. rewrite (getenv_absent _ _ _ A).
  unfold default_export_folder.
  change (PurePath.joinpath (home pf) "cortex_exports")
    with (mkPath (absolute (home pf)) (parts (home pf) ++ ["cortex_exports"])).
  apply of_string_to_string. cbn [parts].
  rewrite forallb_app, W. reflexivity.
Qed.

Lemma default_export_folder_reads_back_witness :
  forallb component (parts (home Sample.machine)) = true
  /\ initialize Sample.machine Sample.credentials !! "EMOTIV_EXPORT_FOLDER" = None
  /\ exists cfg,
      import_config Sample.machine Sample.credentials = inr cfg
      /\ PurePath.of_string (EXPORT_FOLDER cfg)
         = mkPath true ["home"; "user"; "cortex_exports"].
Proof.
  split; [reflexivity|]. split; [reflexivity|].
  eexists. split; [vm_compute; reflexivity|].
  apply (default_export_folder_reads_back Sample.machine Sample.credentials);
    [reflexivity|reflexivity|vm_compute; reflexivity].
Defined.

(** ** More on the coercions *)

(** A text of [EMOTIV_DEBUG] with whitespace anywhere in it, before or
    after the word included, gives false: the text is not trimmed. *)
Theorem debug_is_not_trimmed
    (pf : Platform) (environ : gmap string string) (cfg : Settings) :
  import_config pf environ = inr cfg ->
  has_space (getenv (initialize pf environ) "EMOTIV_DEBUG" "false") = true ->
  DEBUG cfg = false.
Proof.
  intros I S. apply load_settings_inr in I as (debit & _ & ->). cbn [DEBUG].
  destruct (coerce_bool _) eqn:B; [|reflexivity].
  apply coerce_bool_texts in B.
  assert (A : forallb (fun t => negb (has_space t)) debug_on_texts = true)
    by (vm_compute; reflexivity).
  rewrite forallb_forall in A. apply A in B. rewrite S in B. discriminate.
Qed.

Lemma debug_is_not_trimmed_witness :
  let environ := <["EMOTIV_DEBUG" := "true "]> Sample.credentials in
  exists cfg,
    import_config Sample.machine environ = inr cfg
    /\ has_space (getenv (initialize Sample.machine environ) "EMOTIV_DEBUG" "false")
       = true
    /\ DEBUG cfg = false.
Proof.
  eexists. split; [vm_compute; reflexivity|]. split; [reflexivity|].
  apply (debug_is_not_trimmed Sample.machine
           (<["EMOTIV_DEBUG" := "true "]> Sample.credentials));
    [vm_compute; reflexivity|reflexivity].
Defined.

Section Whitespace.









End Whitespace.




Section DecimalText.

Import Numeric.






End DecimalText.



(** ** More on the self-test *)

Section ReportLines.

Implicit Types (cfg : Settings) (fs : filesystem).

Lemma fold_print_app (rows : list (string * string)) (a b : string) :
  fold_left (fun out row => print out (report_line row)) rows (a ++ b)
  = a ++ fold_left (fun out row => print out (report_line row)) rows b.
Proof.
  revert b. induction rows as [|row rows IH]; intros b; [reflexivity|].
  cbn [fold_left]. rewrite print_app. apply IH.
Qed.

(** Every row gets its line, whole. *)
Lemma fold_print_row (rows : list (string * string)) (row : string * string) :
  In row rows ->
  forall init, exists before after,
    fold_left (fun out r => print out (report_line r)) rows init
    = before ++ report_line row ++ NL ++ after.
Proof.
  induction rows as [|r rows IH]; intros H init; [destruct H|].
  cbn [fold_left]. destruct H as [->|H].
  - exists init, (fold_left (fun out r => print out (report_line r)) rows "").
    unfold print at 2.
    replace (init ++ report_line row ++ NL)
      with ((init ++ report_line row ++ NL) ++ "")
      by apply string_app_empty.
    rewrite fold_print_app, !string_app_assoc. reflexivity.
  - apply IH, H.
Qed.

Lemma main_output_row cfg fs (row : string * string) :
  In row (report_rows cfg) ->
  exists before after,
    (main cfg fs).1.2 = before ++ report_line row ++ NL ++ after.
Proof.
  intros H. unfold main, report_header.
  destruct (fold_print_row _ _ H (print "" "=== Emotiv Cortex Configuration ==="))
    as (before & after & ->).
  destruct (validate cfg fs) as [fs' [[msg|lit|code]|u]]; cbn [fst snd];
    exists before; eexists; unfold print; rewrite ?string_app_assoc; reflexivity.
Qed.

Lemma or_else_set (x fallback : string) : x <> "" -> or_else x fallback = x.
Proof.
  intros H. unfold or_else.
  destruct (String.eqb_spec x ""); [contradiction|reflexivity].
Qed.

End ReportLines.

(** Only the secret is masked: the client id, the headset id, the
    license key and the export folder, when set, each have a line of the
    report that shows the value as it is. *)
Theorem report_shows_other_settings_in_clear
    (cfg : Settings) (fs : filesystem) (key value : string) :
  In (key, value)
     [ ("CLIENT_ID", CLIENT_ID cfg); ("HEADSET_ID", HEADSET_ID cfg);
       ("LICENSE", LICENSE cfg); ("EXPORT_FOLDER", EXPORT_FOLDER cfg) ] ->
  value <> "" ->
  exists before after,
    (main cfg fs).1.2
    = before ++ ("  " ++ Str.ljust 16 key ++ " : " ++ value) ++ NL ++ after.
Proof.
  intros H V. apply (main_output_row cfg fs (key, value)).
  unfold report_rows. simpl in H.
  destruct H as [E|[E|[E|[E|[]]]]]; injection E as <- <-;
    try rewrite (or_else_set _ _ V); simpl; tauto.
Qed.

Lemma report_shows_other_settings_in_clear_witness :
  let cfg := mkSettings "app-id" "app-secret" "" "LIC-2024" 10 false "exports" in
  In ("LICENSE", "LIC-2024")
     [ ("CLIENT_ID", CLIENT_ID cfg); ("HEADSET_ID", HEADSET_ID cfg);
       ("LICENSE", LICENSE cfg); ("EXPORT_FOLDER", EXPORT_FOLDER cfg) ]
  /\ "LIC-2024" <> ""
  /\ exists before after,
      (main cfg Sample.workstation).1.2
      = before ++ ("  " ++ Str.ljust 16 "LICENSE" ++ " : " ++ "LIC-2024")
               ++ NL ++ after.
Proof.
  split; [simpl; tauto|]. split; [discriminate|].
  apply (report_shows_other_settings_in_clear
           (mkSettings "app-id" "app-secret" "" "LIC-2024" 10 false "exports")
           Sample.workstation "LICENSE" "LIC-2024");
    [simpl; tauto|discriminate].
Defined.

(** Run as a script with a credential missing, the module prints the
    report and then the message of the [RuntimeError], lets no exception
    escape, and leaves the filesystem untouched. *)
Theorem self_test_with_missing_credential (cfg : Settings) (fs : filesystem) :
  CLIENT_ID cfg = "" \/ CLIENT_SECRET cfg = "" ->
  main cfg fs
  = (fs, print (report_header cfg) (missing_message (missing_fields cfg)), None).
Proof. intros H. unfold main. rewrite (validate_missing _ _ H). reflexivity. Qed.

Lemma self_test_with_missing_credential_witness :
  let cfg := Sample.settings "" "app-secret" "exports" in
  (CLIENT_ID cfg = "" \/ CLIENT_SECRET cfg = "")
  /\ main cfg Sample.workstation
     = (Sample.workstation,
        print (report_header cfg) (missing_message (missing_fields cfg)), None).
Proof.
  split; [left; reflexivity|].
  apply (self_test_with_missing_credential
           (Sample.settings "" "app-secret" "exports") Sample.workstation).
  left; reflexivity.
Defined.

(** Run as a script with both credentials present, the module catches
    nothing of the directory creation: when that fails, its [OSError]
    escapes, after the report and without the line of success. *)
Theorem self_test_lets_oserror_escape
    (cfg : Settings) (fs fs' : filesystem) (code : errno) :
  CLIENT_ID cfg <> "" -> CLIENT_SECRET cfg <> "" ->
  Path_mkdir fs (PurePath.of_string (EXPORT_FOLDER cfg)) = (fs', inl code) ->
  main cfg fs = (fs', report_header cfg, Some (OSError code)).
Proof.
  intros Hi Hs M. unfold main. rewrite (validate_present _ _ Hi Hs), M.
  reflexivity.
Qed.

Lemma self_test_lets_oserror_escape_witness :
  let cfg := Sample.settings "app-id" "app-secret" "notes.txt" in
  CLIENT_ID cfg <> "" /\ CLIENT_SECRET cfg <> ""
  /\ Path_mkdir Sample.workstation (PurePath.of_string (EXPORT_FOLDER cfg))
     = (Sample.workstation, inl EEXIST)
  /\ main cfg Sample.workstation
     = (Sample.workstation, report_header cfg, Some (OSError EEXIST)).
Proof.
  split; [discriminate|]. split; [discriminate|].
  assert (M : Path_mkdir Sample.workstation
                (PurePath.of_string
                   (EXPORT_FOLDER (Sample.settings "app-id" "app-secret" "notes.txt")))
              = (Sample.workstation, inl EEXIST)) by (vm_compute; reflexivity).
  split; [exact M|].
  apply (self_test_lets_oserror_escape
           (Sample.settings "app-id" "app-secret" "notes.txt")
           Sample.workstation Sample.workstation EEXIST);
    [discriminate|discriminate|exact M].
Defined.


